(** * ycg_cloud: model-layer predicates of the storage backend

    A shallow embedding of the Go package [model] (users, teams,
    permission grants, storage configuration and the recycle bin) and
    the properties its quota, expiry and capacity predicates satisfy.

    Conventions of the embedding:
    - Go's [int64] (and [int], 64 bits wide on the supported targets) is
      a [Z] together with the two's-complement wrap-around [wrap64] that
      every arithmetic operation of the source goes through;
    - [time.Time] is an instant, counted in nanoseconds since the Unix
      epoch; [time.Now()] is an explicit argument [now]; the location a
      [Time] carries plays no part in comparisons and is an explicit
      argument [loc] of the two functions that call [AddDate];
    - a [*time.Time] or [*uint] field is an [option];
    - the string-typed enumerations stay strings, so that the empty
      string (the zero value the [BeforeCreate] hooks look for) and
      values outside the declared constants are representable;
    - a GORM hook [func (x *T) BeforeCreate(tx) error] becomes a function
      returning the updated record and the error (always [None], nil). *)

From Stdlib Require Import ZArith Lia Bool String List.
From Stdlib Require Import Floats.
Import ListNotations.

Local Open Scope Z_scope.

(** ** Go integers *)

Module GoInt.

Definition min_int64 : Z := - 2 ^ 63.
Definition max_int64 : Z := 2 ^ 63 - 1.

Definition in_int64 (z : Z) : Prop := min_int64 <= z <= max_int64.

(** Two's-complement reduction of a mathematical integer to [int64]. *)
Definition wrap64 (z : Z) : Z := (z + 2 ^ 63) mod 2 ^ 64 - 2 ^ 63.

Definition add64 (a b : Z) : Z := wrap64 (a + b).
Definition sub64 (a b : Z) : Z := wrap64 (a - b).
Definition neg64 (a : Z) : Z := wrap64 (- a).

End GoInt.

(** ** Go's [time] package, as far as the models use it *)

Module GoTime.

(** An instant: nanoseconds since the Unix epoch. *)
Definition Time : Type := Z.

Definition nanosPerDay : Z := 86400 * 1000000000.

(** [t.After(u)]: the instant [t] is strictly later than [u]. *)
Definition After (t u : Time) : bool := u <? t.

(** [t.Before(u)]: the instant [t] is strictly earlier than [u]. *)
Definition Before (t u : Time) : bool := t <? u.

Definition nanosPerSecond : Z := 1000000000.
Definition secondsPerDay : Z := 86400.

(** Go keeps the seconds of a [Time] in an [int64], counted from
    1 January of year 1; [unixToInternal] is the Unix epoch in that
    count. *)
Definition unixToInternal : Z :=
  (1969 * 365 + 1969 / 4 - 1969 / 100 + 1969 / 400) * secondsPerDay.

(** The instants a Go [Time] can hold: those whose second, counted from
    year 1, is an [int64]. *)
Definition representable (t : Time) : Prop :=
  GoInt.in_int64 (t / nanosPerSecond + unixToInternal).

(** [t.unixSec()], an [int64], and [t.nsec()]. *)
Definition unixSec (t : Time) : Z := GoInt.wrap64 (t / nanosPerSecond).
Definition nsec (t : Time) : Z := t mod nanosPerSecond.

(** [unixTime(sec, nsec)]: the [Time] of a Unix second; the second is
    stored as [sec + unixToInternal], an [int64] sum. *)
Definition unixTime (sec nsec : Z) : Time :=
  (GoInt.add64 sec unixToInternal - unixToInternal) * nanosPerSecond + nsec.

(** What [Location.lookup(sec)] tells about the zone in use at the Unix
    second [sec]: its offset east of UTC in seconds, and the Unix
    seconds [start <= s < end_] during which it is in use. *)
Record zone : Type := mkZone {
  offset : Z;
  start : Z;
  end_ : Z
}.

(** A [*Location], as its [lookup]. *)
Definition Location : Type := Z -> zone.

(** [time.UTC] and [time.FixedZone(name, offset)]: one zone for all
    time. *)
Definition UTC : Location :=
  fun _ => mkZone 0 GoInt.min_int64 GoInt.max_int64.

Definition FixedZone (offset : Z) : Location :=
  fun _ => mkZone offset GoInt.min_int64 GoInt.max_int64.

(** A location whose clocks are never changed. *)
Definition no_clock_change (loc : Location) : Prop :=
  forall s s', offset (loc s) = offset (loc s').

(** [t.AddDate(0, 0, days)] for a [t] in location [loc], which is
    [Date(year, month, day+days, hour, min, sec, nsec, loc)] on the
    date and clock that [t] shows in [loc].

    - [t.Date()] and [t.Clock()] read the wall clock [wall]: the Unix
      second of [t] plus the offset in use at [t].
    - [Date] counts the days up to [year, month, day+days], multiplies
      by the seconds of a day and adds the clock reading, all in 64
      bits: the result is [wall] plus [days] times 86400, reduced to an
      [int64]. Nothing in between reports an overflow.
    - [Date] then takes off the offset that [loc] has in use around the
      result: the one found at the wall clock reading, or, when the
      reading less that offset falls outside that zone's interval, the
      one found there.
    - The nanoseconds of [t] are kept. *)
Definition AddDate_days (loc : Location) (t : Time) (days : Z) : Time :=
  let wall := GoInt.add64 (unixSec t) (offset (loc (unixSec t))) in
  let unix := GoInt.wrap64 (wall + days * secondsPerDay) in
  let z := loc unix in
  let unix :=
    if offset z =? 0 then unix
    else
      let utc := GoInt.sub64 unix (offset z) in
      let off := if (utc <? start z) || (utc >=? end_ z)
                 then offset (loc utc) else offset z in
      GoInt.sub64 unix off in
  unixTime unix (nsec t).

End GoTime.

(** ** Go's [float64], for the usage percentages *)

Module GoFloat.

(** The conversion [float64(n)] of an integer: the nearest binary64
    number, ties to even. *)
Definition float64_of_int (n : Z) : float :=
  SF2Prim (SpecFloat.binary_normalize FloatOps.prec FloatOps.emax n 0 false).

(** [float64(cur) / float64(max) * 100] *)
Definition percent (cur max : Z) : float :=
  (float64_of_int cur / float64_of_int max * 100)%float.

End GoFloat.

(** A hook's result: the record after the hook ran, and its [error]. *)
Definition hooked (A : Type) : Type := (A * option string)%type.

(** ** recycle bin models *)

Definition RecycleStatus : Type := string.
Definition RecycleStatusDeleted : RecycleStatus := "deleted"%string.
Definition RecycleStatusRestored : RecycleStatus := "restored"%string.
Definition RecycleStatusPermanent : RecycleStatus := "permanent"%string.

Definition RecycleType : Type := string.
Definition RecycleTypeFile : RecycleType := "file"%string.
Definition RecycleTypeFolder : RecycleType := "folder"%string.

Module RecycleItem.

(** The scalar columns of [RecycleItem]; the preloaded associations
    ([User], [OriginalFile], ...) and the descriptive strings carry no
    logic and are left out. *)
Record t : Type := mk {
  DeletedAt : GoTime.Time;
  OriginalParentID : option Z;
  RestoredAt : option GoTime.Time;
  RestoredBy : option Z;
  PermanentDeletedAt : option GoTime.Time;
  PermanentDeletedBy : option Z;
  ExpiresAt : option GoTime.Time;
  OriginalPath : string;
  FileName : string;
  StoragePath : string;
  Type_ : RecycleType;
  Status : RecycleStatus;
  FileSize : Z;
  ID : Z;
  UserID : Z;
  OriginalFileID : Z;
  DeletedBy : Z;
  AutoDeleteDays : Z
}.

Definition set_Status (s : RecycleStatus) (ri : t) : t :=
  mk (DeletedAt ri) (OriginalParentID ri) (RestoredAt ri) (RestoredBy ri)
     (PermanentDeletedAt ri) (PermanentDeletedBy ri) (ExpiresAt ri)
     (OriginalPath ri) (FileName ri) (StoragePath ri) (Type_ ri) s
     (FileSize ri) (ID ri) (UserID ri) (OriginalFileID ri) (DeletedBy ri)
     (AutoDeleteDays ri).

Definition set_AutoDeleteDays (d : Z) (ri : t) : t :=
  mk (DeletedAt ri) (OriginalParentID ri) (RestoredAt ri) (RestoredBy ri)
     (PermanentDeletedAt ri) (PermanentDeletedBy ri) (ExpiresAt ri)
     (OriginalPath ri) (FileName ri) (StoragePath ri) (Type_ ri) (Status ri)
     (FileSize ri) (ID ri) (UserID ri) (OriginalFileID ri) (DeletedBy ri)
     d.

Definition set_ExpiresAt (e : option GoTime.Time) (ri : t) : t :=
  mk (DeletedAt ri) (OriginalParentID ri) (RestoredAt ri) (RestoredBy ri)
     (PermanentDeletedAt ri) (PermanentDeletedBy ri) e
     (OriginalPath ri) (FileName ri) (StoragePath ri) (Type_ ri) (Status ri)
     (FileSize ri) (ID ri) (UserID ri) (OriginalFileID ri) (DeletedBy ri)
     (AutoDeleteDays ri).

(** [func (ri *RecycleItem) BeforeCreate(tx *gorm.DB) error];
    [local] is the location of [time.Now()], the process's
    [time.Local]. *)
Definition BeforeCreate (local : GoTime.Location) (now : GoTime.Time) (ri : t)
  : hooked t :=
  let ri := if (Status ri =? EmptyString)%string
            then set_Status RecycleStatusDeleted ri else ri in
  let ri := if AutoDeleteDays ri =? 0
            then set_AutoDeleteDays 30 ri else ri in
  let ri := match ExpiresAt ri with
            | None =>
                let expiresAt :=
                  GoTime.AddDate_days local now (AutoDeleteDays ri) in
                set_ExpiresAt (Some expiresAt) ri
            | Some _ => ri
            end in
  (ri, None).

Definition IsDeleted (ri : t) : bool :=
  (Status ri =? RecycleStatusDeleted)%string.

Definition IsRestored (ri : t) : bool :=
  (Status ri =? RecycleStatusRestored)%string.

Definition IsPermanentDeleted (ri : t) : bool :=
  (Status ri =? RecycleStatusPermanent)%string.

(** [ExpiresAt] is set and [time.Now()] is [After] it. *)
Definition IsExpired (now : GoTime.Time) (ri : t) : bool :=
  match ExpiresAt ri with
  | None => false
  | Some e => GoTime.After now e
  end.

Definition CanRestore (now : GoTime.Time) (ri : t) : bool :=
  (Status ri =? RecycleStatusDeleted)%string && negb (IsExpired now ri).

Definition IsFile (ri : t) : bool := (Type_ ri =? RecycleTypeFile)%string.
Definition IsFolder (ri : t) : bool := (Type_ ri =? RecycleTypeFolder)%string.

(** [func (ri *RecycleItem) GetNotifyDate(notifyDays int) *time.Time];
    [loc] is the location that the value in [ExpiresAt] carries. *)
Definition GetNotifyDate (loc : GoTime.Location) (ri : t) (notifyDays : Z)
  : option GoTime.Time :=
  match ExpiresAt ri with
  | None => None
  | Some e =>
      let notifyDate := GoTime.AddDate_days loc e (GoInt.neg64 notifyDays) in
      Some notifyDate
  end.

End RecycleItem.

Module RecycleBin.

(** The columns of [RecycleBin] (the [User] association is left out). *)
Record t : Type := mk {
  ID : Z;
  UserID : Z;
  IsEnabled : bool;
  AutoDeleteDays : Z;
  MaxStorageSize : Z;
  CurrentStorageSize : Z;
  MaxItemCount : Z;
  CurrentItemCount : Z;
  NotifyBeforeDelete : bool;
  NotifyDays : Z;
  TotalDeletedFiles : Z;
  TotalRestoredFiles : Z;
  TotalPermanentFiles : Z
}.

Definition set_AutoDeleteDays (d : Z) (rb : t) : t :=
  mk (ID rb) (UserID rb) (IsEnabled rb) d (MaxStorageSize rb)
     (CurrentStorageSize rb) (MaxItemCount rb) (CurrentItemCount rb)
     (NotifyBeforeDelete rb) (NotifyDays rb) (TotalDeletedFiles rb)
     (TotalRestoredFiles rb) (TotalPermanentFiles rb).

Definition set_MaxStorageSize (m : Z) (rb : t) : t :=
  mk (ID rb) (UserID rb) (IsEnabled rb) (AutoDeleteDays rb) m
     (CurrentStorageSize rb) (MaxItemCount rb) (CurrentItemCount rb)
     (NotifyBeforeDelete rb) (NotifyDays rb) (TotalDeletedFiles rb)
     (TotalRestoredFiles rb) (TotalPermanentFiles rb).

Definition set_MaxItemCount (m : Z) (rb : t) : t :=
  mk (ID rb) (UserID rb) (IsEnabled rb) (AutoDeleteDays rb)
     (MaxStorageSize rb) (CurrentStorageSize rb) m (CurrentItemCount rb)
     (NotifyBeforeDelete rb) (NotifyDays rb) (TotalDeletedFiles rb)
     (TotalRestoredFiles rb) (TotalPermanentFiles rb).

Definition set_NotifyDays (d : Z) (rb : t) : t :=
  mk (ID rb) (UserID rb) (IsEnabled rb) (AutoDeleteDays rb)
     (MaxStorageSize rb) (CurrentStorageSize rb) (MaxItemCount rb)
     (CurrentItemCount rb) (NotifyBeforeDelete rb) d (TotalDeletedFiles rb)
     (TotalRestoredFiles rb) (TotalPermanentFiles rb).

(** [func (rb *RecycleBin) BeforeCreate(tx *gorm.DB) error] *)
Definition BeforeCreate (rb : t) : hooked t :=
  let rb := if AutoDeleteDays rb =? 0 then set_AutoDeleteDays 30 rb else rb in
  let rb := if MaxStorageSize rb =? 0
            then set_MaxStorageSize 1073741824 rb else rb in
  let rb := if MaxItemCount rb =? 0 then set_MaxItemCount 1000 rb else rb in
  let rb := if NotifyDays rb =? 0 then set_NotifyDays 7 rb else rb in
  (rb, None).

Definition IsStorageFull (rb : t) : bool :=
  CurrentStorageSize rb >=? MaxStorageSize rb.

Definition IsItemCountFull (rb : t) : bool :=
  CurrentItemCount rb >=? MaxItemCount rb.

(** [func (rb *RecycleBin) GetStorageUsagePercent() float64] *)
Definition GetStorageUsagePercent (rb : t) : float :=
  if MaxStorageSize rb =? 0 then 0%float
  else GoFloat.percent (CurrentStorageSize rb) (MaxStorageSize rb).

(** [func (rb *RecycleBin) GetItemUsagePercent() float64] *)
Definition GetItemUsagePercent (rb : t) : float :=
  if MaxItemCount rb =? 0 then 0%float
  else GoFloat.percent (CurrentItemCount rb) (MaxItemCount rb).

Definition ShouldNotifyBeforeDelete (rb : t) : bool := NotifyBeforeDelete rb.

End RecycleBin.

(** ** users *)

Definition UserStatus : Type := string.
Definition UserStatusActive : UserStatus := "active"%string.
Definition UserType : Type := string.
Definition UserTypeNormal : UserType := "normal"%string.
Definition UserTypeAdmin : UserType := "admin"%string.

Module User.

Record t : Type := mk {
  ID : Z;
  Username : string;
  UserType_ : UserType;
  Status : UserStatus;
  StorageQuota : Z;
  UsedStorage : Z;
  PermissionTemplateID : option Z;
  LockedUntil : option GoTime.Time
}.

Definition set_UserType (ut : UserType) (u : t) : t :=
  mk (ID u) (Username u) ut (Status u) (StorageQuota u) (UsedStorage u)
     (PermissionTemplateID u) (LockedUntil u).

Definition set_Status (s : UserStatus) (u : t) : t :=
  mk (ID u) (Username u) (UserType_ u) s (StorageQuota u) (UsedStorage u)
     (PermissionTemplateID u) (LockedUntil u).

Definition set_StorageQuota (q : Z) (u : t) : t :=
  mk (ID u) (Username u) (UserType_ u) (Status u) q (UsedStorage u)
     (PermissionTemplateID u) (LockedUntil u).

Definition set_UsedStorage (n : Z) (u : t) : t :=
  mk (ID u) (Username u) (UserType_ u) (Status u) (StorageQuota u) n
     (PermissionTemplateID u) (LockedUntil u).

(** [func (u *User) BeforeCreate(tx *gorm.DB) error] *)
Definition BeforeCreate (u : t) : hooked t :=
  let u := if (UserType_ u =? EmptyString)%string
           then set_UserType UserTypeNormal u else u in
  let u := if (Status u =? EmptyString)%string
           then set_Status UserStatusActive u else u in
  let u := if StorageQuota u =? 0
           then set_StorageQuota 5368709120 u else u in
  (u, None).

Definition IsActive (u : t) : bool := (Status u =? UserStatusActive)%string.

Definition IsAdmin (u : t) : bool := (UserType_ u =? UserTypeAdmin)%string.

Definition IsStorageExceeded (u : t) : bool :=
  UsedStorage u >=? StorageQuota u.

Definition GetAvailableStorage (u : t) : Z :=
  GoInt.sub64 (StorageQuota u) (UsedStorage u).

Definition IsLocked (now : GoTime.Time) (u : t) : bool :=
  match LockedUntil u with
  | None => false
  | Some l => GoTime.After l now
  end.

End User.

(** ** teams *)

Definition teamMemberRole : Type := string.
Definition TeamMemberRoleOwner : teamMemberRole := "owner"%string.
Definition TeamMemberRoleAdmin : teamMemberRole := "admin"%string.
Definition TeamMemberRoleMember : teamMemberRole := "member"%string.
Definition TeamMemberRoleViewer : teamMemberRole := "viewer"%string.

Definition teamMemberStatus : Type := string.
Definition TeamMemberStatusActive : teamMemberStatus := "active"%string.
Definition TeamMemberStatusInvited : teamMemberStatus := "invited"%string.
Definition TeamMemberStatusInactive : teamMemberStatus := "inactive"%string.
Definition TeamMemberStatusLeft : teamMemberStatus := "left"%string.

Module TeamMember.

Record t : Type := mk {
  ID : Z;
  TeamID : Z;
  UserID : Z;
  Role : teamMemberRole;
  Status : teamMemberStatus
}.

(** [func (tm *TeamMember) BeforeCreate(tx *gorm.DB) error] *)
Definition BeforeCreate (tm : t) : hooked t :=
  let tm := if (Role tm =? EmptyString)%string
            then mk (ID tm) (TeamID tm) (UserID tm) TeamMemberRoleMember (Status tm)
            else tm in
  let tm := if (Status tm =? EmptyString)%string
            then mk (ID tm) (TeamID tm) (UserID tm) (Role tm) TeamMemberStatusActive
            else tm in
  (tm, None).

Definition IsOwner (tm : t) : bool := (Role tm =? TeamMemberRoleOwner)%string.

Definition IsAdmin (tm : t) : bool :=
  (Role tm =? TeamMemberRoleAdmin)%string
  || (Role tm =? TeamMemberRoleOwner)%string.

Definition IsActive (tm : t) : bool :=
  (Status tm =? TeamMemberStatusActive)%string.

Definition CanManageTeam (tm : t) : bool :=
  IsActive tm
  && ((Role tm =? TeamMemberRoleOwner)%string
      || (Role tm =? TeamMemberRoleAdmin)%string).

End TeamMember.

(** ** permission grants *)

Definition PermissionAction : Type := string.
Definition ResourceType : Type := string.

Module userPermission.

Record t : Type := mk {
  ID : Z;
  UserID : Z;
  ResourceType_ : ResourceType;
  ResourceID : option Z;
  Action : PermissionAction;
  Allowed : bool;
  GrantedBy : option Z;
  GrantedAt : GoTime.Time;
  ExpiresAt : option GoTime.Time
}.

(** [up.ExpiresAt != nil && up.ExpiresAt.Before(time.Now())] *)
Definition IsExpired (now : GoTime.Time) (up : t) : bool :=
  match ExpiresAt up with
  | None => false
  | Some e => GoTime.Before e now
  end.

End userPermission.

Module filePermission.

Record t : Type := mk {
  ID : Z;
  FileID : Z;
  UserID : option Z;
  TeamID : option Z;
  Action : PermissionAction;
  Allowed : bool;
  GrantedBy : option Z;
  GrantedAt : GoTime.Time;
  ExpiresAt : option GoTime.Time
}.

(** [fp.ExpiresAt != nil && fp.ExpiresAt.Before(time.Now())] *)
Definition IsExpired (now : GoTime.Time) (fp : t) : bool :=
  match ExpiresAt fp with
  | None => false
  | Some e => GoTime.Before e now
  end.

End filePermission.

(** ** storage configuration *)

Definition ConfigStatus : Type := string.
Definition ConfigStatusActive : ConfigStatus := "active"%string.
Definition ConfigStatusInactive : ConfigStatus := "inactive"%string.

Definition StorageProvider : Type := string.
Definition StorageProviderLocal : StorageProvider := "local"%string.

Module storageConfig.

(** The columns of [storageConfig] its predicates read. *)
Record t : Type := mk {
  MaxFileSize : Z;
  TotalFiles : Z;
  TotalSize : Z;
  UsedSize : Z;
  QuotaSize : Z;
  Name : string;
  Provider : StorageProvider;
  Status : ConfigStatus;
  ID : Z;
  DefaultFlag : bool;
  EnabledFlag : bool
}.

Definition IsActive (stc : t) : bool :=
  (Status stc =? ConfigStatusActive)%string.

Definition IsEnabled (stc : t) : bool := EnabledFlag stc.

Definition IsDefault (stc : t) : bool := DefaultFlag stc.

Definition IsLocal (stc : t) : bool :=
  (Provider stc =? StorageProviderLocal)%string.

(** [func (stc *storageConfig) GetUsagePercent() float64] *)
Definition GetUsagePercent (stc : t) : float :=
  if QuotaSize stc =? 0 then 0%float
  else GoFloat.percent (UsedSize stc) (QuotaSize stc).

Definition IsQuotaExceeded (stc : t) : bool :=
  (QuotaSize stc >? 0) && (UsedSize stc >=? QuotaSize stc).

(** [func (stc *storageConfig) CanUpload(fileSize int64) bool] *)
Definition CanUpload (stc : t) (fileSize : Z) : bool :=
  if negb (IsEnabled stc) || negb (IsActive stc) then false
  else if fileSize >? MaxFileSize stc then false
  else if (QuotaSize stc >? 0)
          && (GoInt.add64 (UsedSize stc) fileSize >? QuotaSize stc) then false
  else true.

End storageConfig.

(** ** Engine operations that the model package does not contain

    The sources stop at the records and their predicates.  The two
    operations below are written from the design document, on top of the
    source's records and predicates, to state what it says about them. *)

Module Resolver.

(** Modelled from the spec: the grant as a tagged variant over the two
    grant tables of the sources. *)
Inductive grant : Type :=
| OfUser (up : userPermission.t)
| OfFile (fp : filePermission.t).

(** Modelled from the spec: a grant with a past [expires-at] is inert;
    whether it is past is asked of the source's [IsExpired]. *)
Definition expired (now : GoTime.Time) (g : grant) : bool :=
  match g with
  | OfUser up => userPermission.IsExpired now up
  | OfFile fp => filePermission.IsExpired now fp
  end.

(** Modelled from the spec: the grant's [allow], the [Allowed] column. *)
Definition allowed (g : grant) : bool :=
  match g with
  | OfUser up => userPermission.Allowed up
  | OfFile fp => filePermission.Allowed fp
  end.

(** Modelled from the spec: [Resolve] is missing from the sources.
    Section 4.1: the first matching non-expired grant, evaluated from
    high to low specificity, determines the outcome, and the
    system-wide default applies when there is none.  [candidates] are
    the stored grants matching the request, most specific first;
    the result is the decision's [allow]. *)
Fixpoint Resolve (now : GoTime.Time) (candidates : list grant)
         (systemDefault : bool) : bool :=
  match candidates with
  | [] => systemDefault
  | g :: rest =>
      if expired now g then Resolve now rest systemDefault else allowed g
  end.

End Resolver.

Module Lifecycle.

(** Modelled from the spec: the lifecycle status of a resource
    (section 3). *)
Inductive resource_status : Type := active | recycled | purged.

(** Modelled from the spec: who asks for a purge (section 4.3): the
    system's timer sweep, or an actor with its [delete] permission and
    its elevated permanent-delete grant. *)
Inductive purger : Type :=
| SystemSweep
| Manual (actorID : Z) (canDelete hasPermanentDelete : bool).

(** Modelled from the spec: the two errors of section 7 a purge can
    meet. *)
Inductive purge_error : Type := Denied | StaleState.

(** Modelled from the spec: what one purge touches, namely the entry,
    its resource, the owner's quota row and the calls made to the byte
    store's [DeleteBytes]. *)
Record world : Type := mkWorld {
  entry : RecycleItem.t;
  resource : resource_status;
  owner : User.t;
  deletedBytes : list string
}.

(** Modelled from the spec: [Release(principal, deltaBytes)] of the
    quota ledger gives the bytes back. *)
Definition Release (u : User.t) (deltaBytes : Z) : User.t :=
  User.set_UsedStorage (GoInt.sub64 (User.UsedStorage u) deltaBytes) u.

(** Modelled from the spec: the one mutation of an entry on purge,
    status to permanent with [permanent_deleted_at] (and who did it). *)
Definition mark_permanent (now : GoTime.Time) (by_ : option Z)
           (ri : RecycleItem.t) : RecycleItem.t :=
  RecycleItem.mk
    (RecycleItem.DeletedAt ri) (RecycleItem.OriginalParentID ri)
    (RecycleItem.RestoredAt ri) (RecycleItem.RestoredBy ri)
    (Some now) by_ (RecycleItem.ExpiresAt ri)
    (RecycleItem.OriginalPath ri) (RecycleItem.FileName ri)
    (RecycleItem.StoragePath ri) (RecycleItem.Type_ ri)
    RecycleStatusPermanent
    (RecycleItem.FileSize ri) (RecycleItem.ID ri) (RecycleItem.UserID ri)
    (RecycleItem.OriginalFileID ri) (RecycleItem.DeletedBy ri)
    (RecycleItem.AutoDeleteDays ri).

(** Modelled from the spec: the sweep purges an entry once
    [now >= expires_at]; a manual purge needs both permissions. *)
Definition may_purge (now : GoTime.Time) (who : purger)
           (ri : RecycleItem.t) : bool :=
  match who with
  | SystemSweep =>
      match RecycleItem.ExpiresAt ri with
      | Some e => e <=? now
      | None => false
      end
  | Manual _ canDelete hasPermanentDelete => canDelete && hasPermanentDelete
  end.

(** Modelled from the spec: the actor recorded on the entry, none for
    the sweep. *)
Definition purged_by (who : purger) : option Z :=
  match who with
  | SystemSweep => None
  | Manual actorID _ _ => Some actorID
  end.

(** Modelled from the spec: [Purge(entry, actor)] is missing from the
    sources.  Sections 4.3, 5 and 8: the status is checked before
    acting, and an entry that is already permanent is left alone
    without an error; otherwise an open entry is purged when the caller
    may do so: the resource becomes purged, the bytes are reclaimed
    through [DeleteBytes], the quota is released and the entry becomes
    permanent with its [permanent_deleted_at] set. *)
Definition Purge (now : GoTime.Time) (who : purger) (w : world)
  : world * option purge_error :=
  if RecycleItem.IsPermanentDeleted (entry w) then (w, None)
  else if negb (RecycleItem.IsDeleted (entry w)) then (w, Some StaleState)
  else if negb (may_purge now who (entry w)) then (w, Some Denied)
  else
    (mkWorld (mark_permanent now (purged_by who) (entry w))
             purged
             (Release (owner w) (RecycleItem.FileSize (entry w)))
             (RecycleItem.StoragePath (entry w) :: deletedBytes w),
     None).

End Lifecycle.

(** ** Further models of the package

    Roles, teams, files, storage configuration rows, messages and logs,
    and the configuration checks of package [utils]. *)

Module userRole.

Record t : Type := mk {
  ID : Z;
  UserID : Z;
  RoleID : Z;
  GrantedBy : option Z;
  GrantedAt : GoTime.Time;
  ExpiresAt : option GoTime.Time
}.

(** [ur.ExpiresAt != nil && ur.ExpiresAt.Before(time.Now())] *)
Definition IsExpired (now : GoTime.Time) (ur : t) : bool :=
  match ExpiresAt ur with
  | None => false
  | Some e => GoTime.Before e now
  end.

End userRole.

Definition TeamStatus : Type := string.
Definition TeamStatusActive : TeamStatus := "active"%string.

Module Team.

(** The columns of [Team] (the member and file associations are left
    out). *)
Record t : Type := mk {
  Name : string;
  Description : string;
  Status : TeamStatus;
  StorageUsed : Z;
  StorageLimit : Z;
  ID : Z;
  CreatorID : Z;
  MaxMembers : Z;
  MemberCount : Z;
  FileCount : Z;
  IsPublic : bool
}.

(** [func (t *Team) BeforeCreate(tx *gorm.DB) error] *)
Definition BeforeCreate (tm : t) : hooked t :=
  let tm := if (Status tm =? EmptyString)%string
            then mk (Name tm) (Description tm) TeamStatusActive
                    (StorageUsed tm) (StorageLimit tm) (ID tm) (CreatorID tm)
                    (MaxMembers tm) (MemberCount tm) (FileCount tm) (IsPublic tm)
            else tm in
  let tm := if MaxMembers tm =? 0
            then mk (Name tm) (Description tm) (Status tm)
                    (StorageUsed tm) (StorageLimit tm) (ID tm) (CreatorID tm)
                    50 (MemberCount tm) (FileCount tm) (IsPublic tm)
            else tm in
  let tm := if StorageLimit tm =? 0
            then mk (Name tm) (Description tm) (Status tm)
                    (StorageUsed tm) 53687091200 (ID tm) (CreatorID tm)
                    (MaxMembers tm) (MemberCount tm) (FileCount tm) (IsPublic tm)
            else tm in
  (tm, None).

Definition IsActive (tm : t) : bool := (Status tm =? TeamStatusActive)%string.

Definition IsStorageExceeded (tm : t) : bool :=
  StorageUsed tm >=? StorageLimit tm.

Definition GetAvailableStorage (tm : t) : Z :=
  GoInt.sub64 (StorageLimit tm) (StorageUsed tm).

End Team.

Definition FileStatus : Type := string.
Definition FileStatusNormal : FileStatus := "normal"%string.
Definition FileStatusDeleted : FileStatus := "deleted"%string.
Definition FileStatusUploading : FileStatus := "uploading"%string.
Definition FileStatusCorrupted : FileStatus := "corrupted"%string.

Definition FileType : Type := string.
Definition FileTypeFolder : FileType := "folder"%string.

Definition StorageType : Type := string.
Definition StorageTypeLocal : StorageType := "local"%string.
Definition StorageTypeOSS : StorageType := "oss"%string.

Module File.

(** The columns of [File] its methods read or write, and the keys that
    identify it. *)
Record t : Type := mk {
  ShareExpiry : option GoTime.Time;
  ParentID : option Z;
  Size : Z;
  ID : Z;
  Version : Z;
  Name : string;
  Path : string;
  StoragePath : string;
  ShareToken : string;
  FileType_ : FileType;
  Status : FileStatus;
  StorageType_ : StorageType;
  IsPublic : bool;
  CanPreview : bool
}.

(** [func (f *File) BeforeCreate(tx *gorm.DB) error] *)
Definition BeforeCreate (f : t) : hooked t :=
  let f := if (Status f =? EmptyString)%string
           then mk (ShareExpiry f) (ParentID f) (Size f) (ID f) (Version f)
                   (Name f) (Path f) (StoragePath f) (ShareToken f)
                   (FileType_ f) FileStatusNormal (StorageType_ f)
                   (IsPublic f) (CanPreview f)
           else f in
  let f := if (StorageType_ f =? EmptyString)%string
           then mk (ShareExpiry f) (ParentID f) (Size f) (ID f) (Version f)
                   (Name f) (Path f) (StoragePath f) (ShareToken f)
                   (FileType_ f) (Status f) StorageTypeLocal
                   (IsPublic f) (CanPreview f)
           else f in
  let f := if Version f =? 0
           then mk (ShareExpiry f) (ParentID f) (Size f) (ID f) 1
                   (Name f) (Path f) (StoragePath f) (ShareToken f)
                   (FileType_ f) (Status f) (StorageType_ f)
                   (IsPublic f) (CanPreview f)
           else f in
  (f, None).

Definition IsFolder (f : t) : bool := (FileType_ f =? FileTypeFolder)%string.

Definition IsDeleted (f : t) : bool := (Status f =? FileStatusDeleted)%string.

(** The share token is set, and the share expiry is unset or [After]
    [time.Now()]. *)
Definition IsShared (now : GoTime.Time) (f : t) : bool :=
  negb (ShareToken f =? EmptyString)%string
  && match ShareExpiry f with
     | None => true
     | Some e => GoTime.After e now
     end.

(** The share expiry is set and [Before] [time.Now()]. *)
Definition IsShareExpired (now : GoTime.Time) (f : t) : bool :=
  match ShareExpiry f with
  | None => false
  | Some e => GoTime.Before e now
  end.

(** [func (f *File) GetFullPath() string] *)
Definition GetFullPath (f : t) : string :=
  if (Path f =? EmptyString)%string then Name f
  else (Path f ++ "/" ++ Name f)%string.

(** [f.CanPreview && !f.IsDeleted() && f.Status == FileStatusNormal] *)
Definition CanPreviewFile (f : t) : bool :=
  CanPreview f && negb (IsDeleted f)
  && (Status f =? FileStatusNormal)%string.

End File.

Module storageConfigRow.

(** A [storageConfig] with the further columns its [BeforeCreate] hook
    writes. *)
Record t : Type := mk {
  config : storageConfig.t;
  BasePath : string;
  ChunkSize : Z;
  SignatureExpiry : Z;
  CacheExpiry : Z;
  MonitorInterval : Z
}.

Definition set_Status (s : ConfigStatus) (c : storageConfig.t) : storageConfig.t :=
  storageConfig.mk (storageConfig.MaxFileSize c) (storageConfig.TotalFiles c)
    (storageConfig.TotalSize c) (storageConfig.UsedSize c)
    (storageConfig.QuotaSize c) (storageConfig.Name c)
    (storageConfig.Provider c) s (storageConfig.ID c)
    (storageConfig.DefaultFlag c) (storageConfig.EnabledFlag c).

Definition set_MaxFileSize (m : Z) (c : storageConfig.t) : storageConfig.t :=
  storageConfig.mk m (storageConfig.TotalFiles c)
    (storageConfig.TotalSize c) (storageConfig.UsedSize c)
    (storageConfig.QuotaSize c) (storageConfig.Name c)
    (storageConfig.Provider c) (storageConfig.Status c) (storageConfig.ID c)
    (storageConfig.DefaultFlag c) (storageConfig.EnabledFlag c).

(** [func (stc *storageConfig) BeforeCreate(tx *gorm.DB) error] *)
Definition BeforeCreate (stc : t) : hooked t :=
  let stc := if (storageConfig.Status (config stc) =? EmptyString)%string
             then mk (set_Status ConfigStatusActive (config stc)) (BasePath stc)
                     (ChunkSize stc) (SignatureExpiry stc) (CacheExpiry stc)
                     (MonitorInterval stc)
             else stc in
  let stc := if (BasePath stc =? EmptyString)%string
             then mk (config stc) "/" (ChunkSize stc) (SignatureExpiry stc)
                     (CacheExpiry stc) (MonitorInterval stc)
             else stc in
  let stc := if storageConfig.MaxFileSize (config stc) =? 0
             then mk (set_MaxFileSize 104857600 (config stc)) (BasePath stc)
                     (ChunkSize stc) (SignatureExpiry stc) (CacheExpiry stc)
                     (MonitorInterval stc)
             else stc in
  let stc := if ChunkSize stc =? 0
             then mk (config stc) (BasePath stc) 5242880 (SignatureExpiry stc)
                     (CacheExpiry stc) (MonitorInterval stc)
             else stc in
  let stc := if SignatureExpiry stc =? 0
             then mk (config stc) (BasePath stc) (ChunkSize stc) 3600
                     (CacheExpiry stc) (MonitorInterval stc)
             else stc in
  let stc := if CacheExpiry stc =? 0
             then mk (config stc) (BasePath stc) (ChunkSize stc)
                     (SignatureExpiry stc) 86400 (MonitorInterval stc)
             else stc in
  let stc := if MonitorInterval stc =? 0
             then mk (config stc) (BasePath stc) (ChunkSize stc)
                     (SignatureExpiry stc) (CacheExpiry stc) 300
             else stc in
  (stc, None).

(** [stc.Provider != StorageProviderLocal] *)
Definition IsCloudStorage (c : storageConfig.t) : bool :=
  negb (storageConfig.Provider c =? StorageProviderLocal)%string.

End storageConfigRow.

Module GoDuration.

(** [time.Duration]: a count of nanoseconds held in an [int64]. *)
Definition minDuration : Z := GoInt.min_int64.
Definition maxDuration : Z := GoInt.max_int64.

Definition Second : Z := 1000000000.
Definition Minute : Z := 60 * Second.

(** [t.Sub(u)]: the duration [t - u], or the least or greatest duration
    when the difference does not fit. *)
Definition Sub (t u : GoTime.Time) : Z :=
  if t - u <? minDuration then minDuration
  else if maxDuration <? t - u then maxDuration
  else t - u.

(** [time.Since(t)] is [time.Now().Sub(t)]. *)
Definition Since (now t : GoTime.Time) : Z := Sub now t.

End GoDuration.

Definition messageType : Type := string.
Definition MessageTypeText : messageType := "text"%string.
Definition MessageTypeFile : messageType := "file"%string.
Definition MessageTypeSystem : messageType := "system"%string.

Definition messageStatus : Type := string.
Definition MessageStatusSent : messageStatus := "sent"%string.

Module Message.

(** The columns of [Message] its methods read or write, and its keys. *)
Record t : Type := mk {
  CreatedAt : GoTime.Time;
  RecalledAt : option GoTime.Time;
  RecalledBy : option Z;
  Content : string;
  Type_ : messageType;
  Status : messageStatus;
  ID : Z;
  ConversationID : Z;
  SenderID : Z;
  IsEdited : bool;
  RecalledFlag : bool
}.

(** [func (m *Message) BeforeCreate(tx *gorm.DB) error] *)
Definition BeforeCreate (m : t) : hooked t :=
  let m := if (Status m =? EmptyString)%string
           then mk (CreatedAt m) (RecalledAt m) (RecalledBy m) (Content m)
                   (Type_ m) MessageStatusSent (ID m) (ConversationID m)
                   (SenderID m) (IsEdited m) (RecalledFlag m)
           else m in
  (m, None).

Definition IsRecalled (m : t) : bool := RecalledFlag m.

(** [!m.RecalledFlag && time.Since(m.CreatedAt) <= 2*time.Minute] *)
Definition CanRecall (now : GoTime.Time) (m : t) : bool :=
  negb (RecalledFlag m)
  && (GoDuration.Since now (CreatedAt m) <=? 2 * GoDuration.Minute).

End Message.

Definition LogLevel : Type := string.
Definition LogLevelDebug : LogLevel := "debug"%string.
Definition LogLevelInfo : LogLevel := "info"%string.
Definition LogLevelWarn : LogLevel := "warn"%string.
Definition LogLevelError : LogLevel := "error"%string.
Definition LogLevelFatal : LogLevel := "fatal"%string.

Definition LogType : Type := string.
Definition LogTypeUser : LogType := "user"%string.
Definition LogTypeSystem : LogType := "system"%string.
Definition LogTypeSecurity : LogType := "security"%string.

Module OperationLog.

(** The columns of [OperationLog] its methods read or write. *)
Record t : Type := mk {
  ID : Z;
  UserID : option Z;
  Type_ : LogType;
  Level : LogLevel;
  Action : string;
  Status : string;
  ImportantFlag : bool;
  AuditedFlag : bool
}.

(** [func (ol *OperationLog) BeforeCreate(tx *gorm.DB) error] *)
Definition BeforeCreate (ol : t) : hooked t :=
  let ol := if (Level ol =? EmptyString)%string
            then mk (ID ol) (UserID ol) (Type_ ol) LogLevelInfo (Action ol)
                    (Status ol) (ImportantFlag ol) (AuditedFlag ol)
            else ol in
  let ol := if (Status ol =? EmptyString)%string
            then mk (ID ol) (UserID ol) (Type_ ol) (Level ol) (Action ol)
                    "success" (ImportantFlag ol) (AuditedFlag ol)
            else ol in
  (ol, None).

Definition IsSuccess (ol : t) : bool := (Status ol =? "success")%string.

Definition IsError (ol : t) : bool :=
  (Level ol =? LogLevelError)%string || (Level ol =? LogLevelFatal)%string.

Definition IsUserOperation (ol : t) : bool := (Type_ ol =? LogTypeUser)%string.
Definition IsSystemOperation (ol : t) : bool := (Type_ ol =? LogTypeSystem)%string.
Definition IsSecurityOperation (ol : t) : bool :=
  (Type_ ol =? LogTypeSecurity)%string.

End OperationLog.

Module systemLog.

Record t : Type := mk {
  ID : Z;
  Level : LogLevel;
  Type_ : LogType;
  Message : string
}.

(** [func (sl *systemLog) BeforeCreate(tx *gorm.DB) error] *)
Definition BeforeCreate (sl : t) : hooked t :=
  let sl := if (Level sl =? EmptyString)%string
            then mk (ID sl) LogLevelInfo (Type_ sl) (Message sl)
            else sl in
  (sl, None).

Definition IsError (sl : t) : bool :=
  (Level sl =? LogLevelError)%string || (Level sl =? LogLevelFatal)%string.

Definition IsWarning (sl : t) : bool := (Level sl =? LogLevelWarn)%string.

End systemLog.

Module securityLog.

Record t : Type := mk {
  ID : Z;
  EventType : string;
  Severity : LogLevel;
  Status : string;
  ThreatLevel : string;
  BlockedFlag : bool;
  ResolvedFlag : bool
}.

(** [func (sl *securityLog) BeforeCreate(tx *gorm.DB) error] *)
Definition BeforeCreate (sl : t) : hooked t :=
  let sl := if (Severity sl =? EmptyString)%string
            then mk (ID sl) (EventType sl) LogLevelWarn (Status sl)
                    (ThreatLevel sl) (BlockedFlag sl) (ResolvedFlag sl)
            else sl in
  let sl := if (Status sl =? EmptyString)%string
            then mk (ID sl) (EventType sl) (Severity sl) "detected"
                    (ThreatLevel sl) (BlockedFlag sl) (ResolvedFlag sl)
            else sl in
  (sl, None).

Definition IsHighThreat (sl : t) : bool :=
  (ThreatLevel sl =? "high")%string || (ThreatLevel sl =? "critical")%string.

Definition IsCritical (sl : t) : bool :=
  (Severity sl =? LogLevelError)%string || (Severity sl =? LogLevelFatal)%string.

End securityLog.

(** ** Package [utils]: checks on the loaded configuration *)

Module Config.

(** The sections of [model.Config] that the checks and environment
    queries read ([Redis], [Upload], [CORS], [RateLimit] and [Cache] are
    read by none of them). *)
Record appConfig : Type := mkApp {
  Name : string;
  Version : string;
  Env : string;
  Debug : bool
}.

Record serverConfig : Type := mkServer {
  ServerHost : string;
  Port : Z;
  Mode : string
}.

Record databaseConfig : Type := mkDatabase {
  Driver : string;
  Host : string;
  DBPort : Z;
  Username : string;
  Password : string;
  DBName : string
}.

Record jwtConfig : Type := mkJWT {
  Secret : string;
  Issuer : string
}.

Record logConfig : Type := mkLog {
  Level : string;
  Format : string;
  FilePath : string
}.

Record t : Type := mk {
  App : appConfig;
  Server : serverConfig;
  Database : databaseConfig;
  JWT : jwtConfig;
  Log : logConfig
}.

(** What the [fmt.Errorf] of each check says: application name empty,
    server port outside 1-65535, database host, user name or database
    name empty, JWT secret empty, invalid environment type (with the
    value given), invalid log level (with the value given). *)
Inductive error : Type :=
| AppNameEmpty
| PortOutOfRange
| DatabaseHostEmpty
| DatabaseUsernameEmpty
| DatabaseNameEmpty
| JWTSecretEmpty
| InvalidEnvType (env : string)
| InvalidLogLevel (level : string).

(** [func validateBasicConfig(config *model.Config) error] *)
Definition validateBasicConfig (c : t) : option error :=
  if (Name (App c) =? EmptyString)%string then Some AppNameEmpty
  else if (Port (Server c) <=? 0) || (Port (Server c) >? 65535)
       then Some PortOutOfRange
  else if (Host (Database c) =? EmptyString)%string then Some DatabaseHostEmpty
  else if (Username (Database c) =? EmptyString)%string
       then Some DatabaseUsernameEmpty
  else if (DBName (Database c) =? EmptyString)%string then Some DatabaseNameEmpty
  else if (Secret (JWT c) =? EmptyString)%string then Some JWTSecretEmpty
  else None.

(** The loop [for _, v := range valid { if x == v { return nil } }]:
    whether it returns from inside. *)
Fixpoint found (x : string) (valid : list string) : bool :=
  match valid with
  | [] => false
  | v :: rest => if (x =? v)%string then true else found x rest
  end.

Definition validEnvs : list string :=
  ["development"; "testing"; "production"]%string.

Definition validLevels : list string :=
  ["debug"; "info"; "warn"; "error"; "fatal"; "panic"]%string.

(** [func validateEnvType(env string) error] *)
Definition validateEnvType (env : string) : option error :=
  if found env validEnvs then None else Some (InvalidEnvType env).

(** [func validateLogLevel(level string) error] *)
Definition validateLogLevel (level : string) : option error :=
  if found level validLevels then None else Some (InvalidLogLevel level).

(** [func validateConfig(config *model.Config) error] *)
Definition validateConfig (c : t) : option error :=
  match validateBasicConfig c with
  | Some err => Some err
  | None =>
      match validateEnvType (Env (App c)) with
      | Some err => Some err
      | None =>
          match validateLogLevel (Level (Log c)) with
          | Some err => Some err
          | None => None
          end
      end
  end.

(** [func IsProduction() bool], on the global [GlobalConfig], which is
    nil until a configuration was loaded. *)
Definition IsProduction (GlobalConfig : option t) : bool :=
  match GlobalConfig with
  | None => false
  | Some c => (Env (App c) =? "production")%string
  end.

(** [func IsDevelopment() bool] *)
Definition IsDevelopment (GlobalConfig : option t) : bool :=
  match GlobalConfig with
  | None => true
  | Some c => (Env (App c) =? "development")%string
  end.

End Config.

(** ** Package [model]: migration helpers

    The database handle is what the helpers ask of it: whether a table
    or an index exists, and what migrating one model does to it.  What
    they print with [log] is kept as a list of events. *)

Module Migrate.

(** [func joinColumns(columns []string) string]: the loop over
    [columns], with its index [i] and its accumulator [result]. *)
Fixpoint joinColumns_from (i : nat) (result : string) (columns : list string)
  : string :=
  match columns with
  | [] => result
  | col :: rest =>
      let result := if (0 <? i)%nat then (result ++ ", ")%string else result in
      joinColumns_from (S i) (result ++ col)%string rest
  end.

Definition joinColumns (columns : list string) : string :=
  joinColumns_from 0 EmptyString columns.

Inductive event : Type :=
| MigrationStarted
| ModelMigrated (model : string)
| MigrationDone
| ValidationStarted
| TablePassed (table : string)
| IndexMissing (table index : string)
| IndexPassed (table index : string)
| ValidationDone.

(** The two errors built with [fmt.Errorf]: migrating a model failed
    (wrapping the cause), a table does not exist. *)
Inductive error (E : Type) : Type :=
| MigrateFailed (model : string) (cause : E)
| TableMissing (table : string).

Arguments MigrateFailed {E} model cause.
Arguments TableMissing {E} table.

(** The models of [AutoMigrate], in its order. *)
Definition models : list string :=
  ["User"; "SystemConfig"; "PermissionTemplate"; "Role"; "Team";
   "StorageConfig"; "configHistory"; "File"; "TeamMember"; "TeamFile";
   "TeamRole"; "Conversation"; "RecycleItem"; "RecycleBin";
   "templatePermission"; "userPermission"; "filePermission"; "userRole";
   "ConversationMember"; "Message"; "MessageReadReceipt";
   "OperationLog"; "SystemLog"; "SecurityLog"; "RecycleLog"]%string.

(** The loop of [AutoMigrate]: migrate each model, return at the first
    error. *)
Fixpoint migrate_each {DB E : Type} (migrate : DB -> string -> DB * option E)
         (db : DB) (log : list event) (ms : list string)
  : DB * list event * option (error E) :=
  match ms with
  | [] => (db, log ++ [MigrationDone], None)
  | model :: rest =>
      match migrate db model with
      | (db', Some err) => (db', log, Some (MigrateFailed model err))
      | (db', None) => migrate_each migrate db' (log ++ [ModelMigrated model]) rest
      end
  end.

(** [func AutoMigrate(db *gorm.DB) error] *)
Definition AutoMigrate {DB E : Type} (migrate : DB -> string -> DB * option E)
           (db : DB) : DB * list event * option (error E) :=
  migrate_each migrate db [MigrationStarted] models.

(** The tables and the indexes [ValidateModels] looks for. *)
Definition tables : list string :=
  ["users"; "files"; "teams"; "team_members"; "team_files";
   "permission_templates"; "user_permissions"; "file_permissions";
   "roles"; "user_roles"; "conversations"; "messages";
   "recycle_items"; "recycle_bins"; "system_configs";
   "operation_logs"; "system_logs"; "security_logs"]%string.

Definition indexChecks : list (string * string) :=
  [("users", "idx_users_username"); ("users", "idx_users_email");
   ("files", "idx_files_owner_id"); ("files", "idx_files_parent_id");
   ("team_members", "idx_team_members_team_id");
   ("team_members", "idx_team_members_user_id")]%string.

(** The second loop of [ValidateModels]: a missing index is a warning. *)
Fixpoint check_indexes (HasIndex : string -> string -> bool)
         (log : list event) (checks : list (string * string)) : list event :=
  match checks with
  | [] => log
  | (table, index) :: rest =>
      if negb (HasIndex table index)
      then check_indexes HasIndex (log ++ [IndexMissing table index]) rest
      else check_indexes HasIndex (log ++ [IndexPassed table index]) rest
  end.

(** The first loop of [ValidateModels]: a missing table is an error. *)
Fixpoint check_tables {E : Type} (HasTable : string -> bool)
         (log : list event) (ts : list string)
  : list event * option (error E) :=
  match ts with
  | [] => (log, None)
  | table :: rest =>
      if negb (HasTable table) then (log, Some (TableMissing table))
      else check_tables HasTable (log ++ [TablePassed table]) rest
  end.

(** [func ValidateModels(db *gorm.DB) error] *)
Definition ValidateModels {E : Type} (HasTable : string -> bool)
           (HasIndex : string -> string -> bool)
  : list event * option (error E) :=
  match check_tables HasTable [ValidationStarted] tables with
  | (log, Some err) => (log, Some err)
  | (log, None) =>
      (check_indexes HasIndex log indexChecks ++ [ValidationDone], None)
  end.

End Migrate.

(** ** The quota ledger, which the model package does not contain

    The sources hold the two quota columns of a user and read them
    ([IsStorageExceeded], [GetAvailableStorage]); nothing in them writes
    [UsedStorage].  The ledger that does, and the engine operations that
    call it, are written from the design document. *)

Module Ledger.

(** Modelled from the spec: the error with which [Reserve] fails
    (section 7). *)
Inductive ledger_error : Type := QuotaExceeded.

(** Modelled from the spec: the write of a team's [quota_used], the
    [StorageUsed] column. *)
Definition set_StorageUsed (n : Z) (tm : Team.t) : Team.t :=
  Team.mk (Team.Name tm) (Team.Description tm) (Team.Status tm)
          n (Team.StorageLimit tm) (Team.ID tm) (Team.CreatorID tm)
          (Team.MaxMembers tm) (Team.MemberCount tm) (Team.FileCount tm)
          (Team.IsPublic tm).

(** Modelled from the spec: [Reserve(principal, teamOrNil, deltaBytes)]
    is missing from the sources.  Section 4.2: it fails with
    [QuotaExceeded] when [used + delta > total]; a team resource
    reserves against the team's quota in the same step, and both
    succeed or neither is applied. *)
Definition Reserve (u : User.t) (teamOrNil : option Team.t) (deltaBytes : Z)
  : (User.t * option Team.t) * option ledger_error :=
  if User.UsedStorage u + deltaBytes >? User.StorageQuota u
  then ((u, teamOrNil), Some QuotaExceeded)
  else
    match teamOrNil with
    | None =>
        ((User.set_UsedStorage (User.UsedStorage u + deltaBytes) u, None),
         None)
    | Some tm =>
        if Team.StorageUsed tm + deltaBytes >? Team.StorageLimit tm
        then ((u, teamOrNil), Some QuotaExceeded)
        else
          ((User.set_UsedStorage (User.UsedStorage u + deltaBytes) u,
            Some (set_StorageUsed (Team.StorageUsed tm + deltaBytes) tm)),
           None)
    end.

(** Modelled from the spec: [Release(principal, teamOrNil, deltaBytes)]
    is missing from the sources.  Section 4.2: it gives the bytes back
    to the principal, and to the team for a team resource, and has no
    error. *)
Definition Release (u : User.t) (teamOrNil : option Team.t) (deltaBytes : Z)
  : User.t * option Team.t :=
  (Lifecycle.Release u deltaBytes,
   option_map
     (fun tm => set_StorageUsed (GoInt.sub64 (Team.StorageUsed tm) deltaBytes) tm)
     teamOrNil).

(** Modelled from the spec: a principal together with the sizes, in
    bytes, of the resources it owns whose status is active or recycled
    (section 3), the newest first. *)
Record account : Type := mkAccount {
  principal : User.t;
  owned : list N
}.

(** Modelled from the spec: registration creates the principal, which
    owns nothing yet; its row goes through the creation hook of the
    sources. *)
Definition register (u : User.t) : account :=
  mkAccount (fst (User.BeforeCreate u)) [].

(** Modelled from the spec: the operations of the engine on the
    resources of one principal (sections 4.2 and 4.3).  An upload
    reserves the size of the new resource and then writes its bytes,
    which may fail; [Delete], [Restore] and [Purge] name a resource by
    its place among the owned ones. *)
Inductive operation : Type :=
| Upload (size : N) (teamOrNil : option Team.t) (written : bool)
| Delete (i : nat)
| Restore (i : nat)
| Purge (i : nat) (teamOrNil : option Team.t).

(** Modelled from the spec: a purged resource is no longer among the
    owned ones; [remove_nth i l] is [l] without its element at place
    [i]. *)
Fixpoint remove_nth {A : Type} (i : nat) (l : list A) : list A :=
  match l, i with
  | [], _ => []
  | _ :: rest, O => rest
  | x :: rest, S j => x :: remove_nth j rest
  end.

(** Modelled from the spec: what one operation does to the account.
    - An upload that [Reserve] refuses changes nothing; after a
      successful [Reserve] the resource is owned, unless the write of
      its bytes failed, in which case the caller calls [Release] with
      the same delta.
    - Recycling does not release quota and restoring does not reserve
      again.
    - Purging releases the size of the purged resource, which is then
      no longer counted; purging what is not there changes nothing. *)
Definition step (s : account) (o : operation) : account :=
  match o with
  | Upload size teamOrNil written =>
      match Reserve (principal s) teamOrNil (Z.of_N size) with
      | (_, Some _) => s
      | ((u, tm), None) =>
          if written then mkAccount u (size :: owned s)
          else mkAccount (fst (Release u tm (Z.of_N size))) (owned s)
      end
  | Delete _ => s
  | Restore _ => s
  | Purge i teamOrNil =>
      match nth_error (owned s) i with
      | None => s
      | Some size =>
          mkAccount (fst (Release (principal s) teamOrNil (Z.of_N size)))
                    (remove_nth i (owned s))
      end
  end.

(** Modelled from the spec: a state reachable through the engine's
    operations is [run (register u) ops] for some list of them. *)
Definition run (s : account) (ops : list operation) : account :=
  fold_left step ops s.

(** Modelled from the spec: the sum of the sizes of the resources that
    count, which section 3 gives as the value of [quota_used]. *)
Definition total_size (sizes : list N) : Z :=
  fold_right (fun n acc => Z.of_N n + acc) 0 sizes.

End Ledger.

(** What every operation of the ledger keeps true of an account: the
    usage is the sum of what is owned, within the quota, and the quota
    is an [int64]. *)
Definition balanced (s : Ledger.account) : Prop :=
  User.UsedStorage (Ledger.principal s) = Ledger.total_size (Ledger.owned s)
  /\ User.UsedStorage (Ledger.principal s)
     <= User.StorageQuota (Ledger.principal s)
  /\ User.StorageQuota (Ledger.principal s) <= GoInt.max_int64.

(** The retention the hook settles on: 30 days when none was given. *)
Definition retention_days (ri : RecycleItem.t) : Z :=
  if RecycleItem.AutoDeleteDays ri =? 0 then 30 else RecycleItem.AutoDeleteDays ri.

(** ** Sample records

    Concrete rows used by the examples further down. *)

(** An open entry that expires at instant 1000. *)
Definition entry_expiring_at_1000 : RecycleItem.t :=
  RecycleItem.mk 0 None None None None None (Some 1000)
    "/docs/a.txt" "a.txt" "store/a" RecycleTypeFile RecycleStatusDeleted
    80 1 1 1 1 30.

(** A deletion record as the delete path hands it to GORM: no status,
    no retention, no expiry yet. *)
Definition fresh_entry : RecycleItem.t :=
  RecycleItem.mk 500 (Some 7) None None None None None
    "/docs/a.txt" "a.txt" "store/a" RecycleTypeFile EmptyString
    80 0 1 42 1 0.

(** Midnight of 1 January 2000, UTC. *)
Definition t2000 : GoTime.Time := 946684800 * GoTime.nanosPerSecond.

(** A deletion record that asks for a retention of 2e14 days. *)
Definition long_retention_entry : RecycleItem.t :=
  RecycleItem.set_AutoDeleteDays 200000000000000 fresh_entry.

(** An open entry that expires at [t2000]. *)
Definition entry_expiring_in_2000 : RecycleItem.t :=
  RecycleItem.set_ExpiresAt (Some t2000) entry_expiring_at_1000.

(** A location one hour east of UTC whose clocks are put forward by an
    hour at the Unix second 949000000, late in January 2000. *)
Definition summer_time_zone : GoTime.Location :=
  fun s =>
    if s <? 949000000
    then GoTime.mkZone 3600 GoInt.min_int64 949000000
    else GoTime.mkZone 7200 949000000 GoInt.max_int64.

(** A bin row with every setting left unset. *)
Definition unset_bin : RecycleBin.t :=
  RecycleBin.mk 1 1 true 0 0 0 0 0 true 0 0 0 0.

(** The share grant of the scenario: it allows [read], it expired at
    instant 100, and it is still in the store at instant 200. *)
Definition stale_share : filePermission.t :=
  filePermission.mk 9 42 None (Some 3) "read"%string true (Some 1) 10 (Some 100).

(** A local store with a quota of 100 bytes, 20 of them used. *)
Definition small_store : storageConfig.t :=
  storageConfig.mk 1000 1 20 20 100 "local" StorageProviderLocal
    ConfigStatusActive 1 true true.

(** A user row written with usage and no quota: the hook fills in the
    5 GiB default, 1 GiB below what is used. *)
Definition heavy_user : User.t :=
  User.mk 1 "u1" EmptyString EmptyString 0 6442450944 None None.

(** A user within quota: 80 of 100 bytes used. *)
Definition light_user : User.t :=
  User.mk 2 "u2" UserTypeNormal UserStatusActive 100 80 None None.

(** A bin row holding 1500 items and 2 GiB, written without maxima. *)
Definition crowded_bin : RecycleBin.t :=
  RecycleBin.mk 1 1 true 30 0 2147483648 0 1500 true 7 1500 0 0.

Definition one_day : Z := GoTime.nanosPerDay.

(** The world of the sweep scenario: an 80-byte file of a user with a
    quota of 100, deleted at instant 0 with 30 days of retention. *)
Definition recycled_world : Lifecycle.world :=
  Lifecycle.mkWorld
    (fst (RecycleItem.BeforeCreate GoTime.UTC 0 fresh_entry))
    Lifecycle.recycled
    (User.mk 1 "u1" UserTypeNormal UserStatusActive 100 80 None None)
    [].

(** A new account with a quota of 100 bytes. *)
Definition new_user : User.t :=
  User.mk 3 "u3" EmptyString EmptyString 100 0 None None.

(** The scenario of section 8 and some more: an upload of 80 bytes,
    one of 30 that does not fit, the deletion and restoration of the
    first, an upload of 20 whose write fails, and a purge. *)
Definition busy_day : list Ledger.operation :=
  [Ledger.Upload 80 None true; Ledger.Upload 30 None true;
   Ledger.Delete 0; Ledger.Restore 0;
   Ledger.Upload 20 None false; Ledger.Upload 15 None true;
   Ledger.Purge 1 None].

(** A team row written with nothing but its name. *)
Definition new_team : Team.t :=
  Team.mk "docs" "documentation" EmptyString 0 0 1 1 0 0 0 false.

(** A store at its quota: 100 of 100 bytes used. *)
Definition full_store : storageConfig.t :=
  storageConfig.mk 1000 5 100 100 100 "local" StorageProviderLocal
    ConfigStatusActive 2 false true.

(** An enabled store row with every other setting left unset. *)
Definition blank_store_row : storageConfigRow.t :=
  storageConfigRow.mk
    (storageConfig.mk 0 0 0 0 0 "s3" "awss3"%string EmptyString 3 false true)
    EmptyString 0 0 0 0.

(** * Properties *)

(** ** Integer and clock facts *)

Section GoIntFacts.

Import GoInt.

Lemma wrap64_in_range (z : Z) : in_int64 z -> wrap64 z = z.
Proof.
  unfold in_int64, min_int64, max_int64, wrap64. intros Hz.
  rewrite Z.mod_small by lia. lia.
Qed.

Lemma wrap64_bounded (z : Z) : in_int64 (wrap64 z).
Proof.
  unfold in_int64, min_int64, max_int64, wrap64.
  pose proof (Z.mod_pos_bound (z + 2 ^ 63) (2 ^ 64) ltac:(lia)). lia.
Qed.


Lemma add64_exact (a b : Z) : in_int64 (a + b) -> add64 a b = a + b.
Proof. apply wrap64_in_range. Qed.

Lemma sub64_exact (a b : Z) : in_int64 (a - b) -> sub64 a b = a - b.
Proof. apply wrap64_in_range. Qed.

Lemma neg64_exact (a : Z) : min_int64 < a <= max_int64 -> neg64 a = - a.
Proof.
  intros Ha. apply wrap64_in_range.
  unfold in_int64, min_int64, max_int64 in *. lia.
Qed.

(** The one [int64] whose negation is not representable. *)
Lemma neg64_min_int64 : neg64 min_int64 = min_int64.
Proof. reflexivity. Qed.

(** Reduction moves a value by a multiple of [2 ^ 64]. *)
Lemma wrap64_decomp (z : Z) : exists k, wrap64 z = z + k * 2 ^ 64.
Proof.
  exists (- ((z + 2 ^ 63) / 2 ^ 64)). unfold wrap64.
  pose proof (Z.div_mod (z + 2 ^ 63) (2 ^ 64) ltac:(lia)) as H.
  rewrite Z.mul_opp_l, (Z.mul_comm _ (2 ^ 64)). lia.
Qed.

(** Whatever was reduced on the way, the result is the one [int64]
    that differs from the exact value by a multiple of [2 ^ 64]. *)
Lemma wrap64_unique (z r k : Z) :
  in_int64 r -> z = r + k * 2 ^ 64 -> wrap64 z = r.
Proof.
  intros Hr Hz. subst z. unfold wrap64.
  replace (r + k * 2 ^ 64 + 2 ^ 63) with (r + 2 ^ 63 + k * 2 ^ 64) by ring.
  rewrite Z.mod_add by lia.
  unfold in_int64, min_int64, max_int64 in Hr.
  rewrite Z.mod_small by lia. lia.
Qed.

End GoIntFacts.

Section GoTimeFacts.

Import GoTime.

Lemma After_lt (t u : Time) : After t u = true <-> u < t.
Proof. unfold After. apply Z.ltb_lt. Qed.

Lemma After_false_le (t u : Time) : After t u = false <-> t <= u.
Proof. unfold After. rewrite Z.ltb_ge. reflexivity. Qed.

Lemma Before_lt (t u : Time) : Before t u = true <-> t < u.
Proof. unfold Before. apply Z.ltb_lt. Qed.

Lemma Before_After (t u : Time) : Before t u = After u t.
Proof. reflexivity. Qed.

Lemma no_clock_change_FixedZone (off : Z) : no_clock_change (FixedZone off).
Proof. intros s s'. reflexivity. Qed.

Lemma no_clock_change_UTC : no_clock_change UTC.
Proof. intros s s'. reflexivity. Qed.

(** The second of a shifted instant. *)
Lemma shifted_second (t : Time) (days : Z) :
  (t + days * nanosPerDay) / nanosPerSecond
  = t / nanosPerSecond + days * secondsPerDay.
Proof.
  unfold nanosPerDay, nanosPerSecond, secondsPerDay.
  replace (days * (86400 * 1000000000)) with (days * 86400 * 1000000000)
    by ring.
  apply Z.div_add. discriminate.
Qed.

(** Where no clock is ever changed and the result is a time Go can
    hold, [AddDate] by a number of days is a shift by that many times
    24 hours. *)
Lemma AddDate_days_exact (loc : Location) (t : Time) (days : Z) :
  no_clock_change loc ->
  representable (t + days * nanosPerDay) ->
  AddDate_days loc t days = t + days * nanosPerDay.
Proof.
  intros Hloc Hrep. unfold representable in Hrep.
  rewrite shifted_second in Hrep.
  set (q := t / nanosPerSecond) in *.
  set (D := days * secondsPerDay) in *.
  set (c := offset (loc 0)).
  assert (Hc : forall s, offset (loc s) = c) by (intros s; apply Hloc).
  assert (Hsec : forall x,
             (exists k, x = q + D + k * 2 ^ 64) ->
             unixTime x (nsec t) = t + days * nanosPerDay).
  { intros x [k Hx]. unfold unixTime, GoInt.add64.
    rewrite (wrap64_unique (x + unixToInternal) (q + D + unixToInternal) k Hrep)
      by (rewrite Hx; ring).
    unfold nsec. subst q D.
    pose proof (Z.div_mod t nanosPerSecond ltac:(discriminate)) as Ht.
    unfold nanosPerDay, nanosPerSecond, secondsPerDay in *. lia. }
  unfold AddDate_days. cbv zeta. rewrite !Hc.
  unfold unixSec, GoInt.add64, GoInt.sub64. fold q. fold D.
  destruct (wrap64_decomp q) as [k1 H1].
  destruct (wrap64_decomp (GoInt.wrap64 q + c)) as [k2 H2].
  destruct (wrap64_decomp (GoInt.wrap64 (GoInt.wrap64 q + c) + D)) as [k3 H3].
  destruct (wrap64_decomp
              (GoInt.wrap64 (GoInt.wrap64 (GoInt.wrap64 q + c) + D) - c))
    as [k4 H4].
  destruct (c =? 0) eqn:Hc0.
  - apply Z.eqb_eq in Hc0. apply Hsec. exists (k1 + k2 + k3).
    rewrite H3, H2, H1, Hc0. ring.
  - replace (if _ || _ then c else c) with c
      by (destruct (_ || _); reflexivity).
    apply Hsec. exists (k1 + k2 + k3 + k4).
    rewrite H4, H3, H2, H1. ring.
Qed.

(** The same for a move back by [days] days, which the code asks for
    as [AddDate] by the negated count, an [int] negation. *)
Lemma GetNotifyDate_shift (loc : Location) (t : Time) (days : Z) :
  no_clock_change loc ->
  representable (t - days * nanosPerDay) ->
  AddDate_days loc t (GoInt.neg64 days) = t - days * nanosPerDay.
Proof.
  intros Hloc Hrep.
  destruct (wrap64_decomp (- days)) as [k Hk].
  assert (Hsame : forall d j, AddDate_days loc t (d + j * 2 ^ 64)
                              = AddDate_days loc t d).
  { intros d j. unfold AddDate_days. cbv zeta.
    replace (GoInt.wrap64
               (GoInt.add64 (unixSec t) (offset (loc (unixSec t)))
                + (d + j * 2 ^ 64) * secondsPerDay))
      with (GoInt.wrap64
              (GoInt.add64 (unixSec t) (offset (loc (unixSec t)))
               + d * secondsPerDay)); [reflexivity | ].
    destruct (wrap64_decomp
                (GoInt.add64 (unixSec t) (offset (loc (unixSec t)))
                 + d * secondsPerDay)) as [k' Hk'].
    symmetry. apply (wrap64_unique _ _ (- k' + j * secondsPerDay)).
    - apply wrap64_bounded.
    - rewrite Hk'. ring. }
  unfold GoInt.neg64. rewrite Hk, Hsame.
  replace (t - days * nanosPerDay) with (t + - days * nanosPerDay) in * by ring.
  apply AddDate_days_exact; assumption.
Qed.

End GoTimeFacts.

(** ** Recycle entries *)

Section RecycleItemFacts.

Import RecycleItem.

Lemma IsExpired_iff (now : GoTime.Time) (ri : t) :
  IsExpired now ri = true <-> exists e, ExpiresAt ri = Some e /\ e < now.
Proof.
  unfold IsExpired. destruct (ExpiresAt ri) as [e|].
  - rewrite After_lt. split.
    + intros H. exists e. split; [reflexivity | exact H].
    + intros [e' [He' Hlt]]. inversion He'. subst e'. exact Hlt.
  - split; [discriminate | intros [e [He _]]; discriminate].
Qed.

Lemma IsExpired_false_iff (now : GoTime.Time) (ri : t) :
  IsExpired now ri = false <-> forall e, ExpiresAt ri = Some e -> now <= e.
Proof.
  unfold IsExpired. destruct (ExpiresAt ri) as [e|].
  - rewrite After_false_le. split.
    + intros H e' He'. inversion He'. subst e'. exact H.
    + intros H. apply H. reflexivity.
  - split; [intros _ e He; discriminate | reflexivity].
Qed.

Lemma CanRestore_unfold (now : GoTime.Time) (ri : t) :
  CanRestore now ri = true <->
  Status ri = RecycleStatusDeleted /\ IsExpired now ri = false.
Proof.
  unfold CanRestore.
  rewrite andb_true_iff, negb_true_iff, String.eqb_eq. reflexivity.
Qed.

Lemma CanRestore_needs_deleted (now : GoTime.Time) (ri : t) :
  Status ri <> RecycleStatusDeleted -> CanRestore now ri = false.
Proof.
  intros Hs. unfold CanRestore.
  apply String.eqb_neq in Hs. rewrite Hs. reflexivity.
Qed.

End RecycleItemFacts.

(** C1, as stated, fails on the code: at the very instant [expires_at]
    the entry is still restorable, although the current time is not
    strictly before [expires_at]. *)
Lemma CanRestore_at_expiry_instant :
  ~ (RecycleItem.CanRestore 1000 entry_expiring_at_1000 = true <->
     RecycleItem.Status entry_expiring_at_1000 = RecycleStatusDeleted /\
     exists e, RecycleItem.ExpiresAt entry_expiring_at_1000 = Some e /\ 1000 < e).
Proof.
  intros [Hcode _].
  destruct (Hcode eq_refl) as [_ [e [He Hlt]]].
  inversion He. subst e. lia.
Qed.

(** Around the expiry instant: restorable just before and at it, not
    after it. *)
Example CanRestore_around_expiry :
  RecycleItem.CanRestore 999 entry_expiring_at_1000 = true
  /\ RecycleItem.CanRestore 1000 entry_expiring_at_1000 = true
  /\ RecycleItem.CanRestore 1001 entry_expiring_at_1000 = false.
Proof. repeat split. Qed.

(** C1 (amended): restoration is permitted if and only if the entry's
    status is [deleted] and the entry is not expired, that is, its
    [expires_at] is unset or the current time is at or before it.  A
    restore strictly after [expires_at] is refused, and an entry whose
    status is [restored] or [permanent] is never restorable. *)
Theorem CanRestore_iff (now : GoTime.Time) (ri : RecycleItem.t) :
  (RecycleItem.CanRestore now ri = true <->
     RecycleItem.Status ri = RecycleStatusDeleted /\
     (forall e, RecycleItem.ExpiresAt ri = Some e -> now <= e))
  /\ (forall e, RecycleItem.ExpiresAt ri = Some e -> e < now ->
        RecycleItem.CanRestore now ri = false)
  /\ (RecycleItem.Status ri = RecycleStatusRestored ->
        RecycleItem.CanRestore now ri = false)
  /\ (RecycleItem.Status ri = RecycleStatusPermanent ->
        RecycleItem.CanRestore now ri = false).
Proof.
  split; [split | split; [ | split ] ].
  - intros H. apply CanRestore_unfold in H. destruct H as [Hs H].
    split; [exact Hs|]. apply IsExpired_false_iff. exact H.
  - intros [Hs He]. apply CanRestore_unfold. split; [exact Hs|].
    apply IsExpired_false_iff. exact He.
  - intros e He Hlt.
    destruct (RecycleItem.CanRestore now ri) eqn:Hc; [exfalso | reflexivity].
    apply CanRestore_unfold in Hc. destruct Hc as [_ Hc].
    pose proof (proj1 (IsExpired_false_iff now ri) Hc e He). lia.
  - intros Hs. apply CanRestore_needs_deleted. rewrite Hs. discriminate.
  - intros Hs. apply CanRestore_needs_deleted. rewrite Hs. discriminate.
Qed.

(** Case analysis over the tests of a [BeforeCreate] hook, innermost
    first: each test is on a field of the record as it came in. *)
Ltac hook_cases :=
  repeat (cbn -[Z.mul Z.add];
          match goal with
          | |- context [String.eqb ?a ?b] =>
              is_var a; destruct (String.eqb_spec a b)
          | |- context [Z.eqb ?a ?b] => is_var a; destruct (Z.eqb_spec a b)
          | |- context [match ?o with Some _ => _ | None => _ end] =>
              is_var o; destruct o
          end);
  cbn -[Z.mul Z.add].

(** What the hook leaves in the three columns it may write. *)
Lemma RecycleItem_BeforeCreate_expiry_facts
      (local : GoTime.Location) (now : GoTime.Time) (ri : RecycleItem.t) :
  (RecycleItem.Status ri = EmptyString ->
     RecycleItem.Status (fst (RecycleItem.BeforeCreate local now ri))
     = RecycleStatusDeleted)
  /\ RecycleItem.AutoDeleteDays (fst (RecycleItem.BeforeCreate local now ri))
     = (if RecycleItem.AutoDeleteDays ri =? 0
        then 30 else RecycleItem.AutoDeleteDays ri)
  /\ (RecycleItem.ExpiresAt ri = None ->
        RecycleItem.ExpiresAt (fst (RecycleItem.BeforeCreate local now ri))
        = Some (GoTime.AddDate_days local now
                  (if RecycleItem.AutoDeleteDays ri =? 0
                   then 30 else RecycleItem.AutoDeleteDays ri))).
Proof.
  destruct ri as [da op ra rs pa pb ex opath fn sp ty st fs id uid ofid db days].
  unfold RecycleItem.BeforeCreate.
  generalize (GoTime.AddDate_days local now). intros shift.
  hook_cases;
    repeat match goal with |- _ /\ _ => split end;
    intros; try reflexivity; try congruence; try contradiction.
Qed.

(** C5, as stated, fails on the code.  [AddDate] counts its seconds in
    64 bits and says nothing when they overflow: a retention of 2e14
    days, asked for at the start of the year 2000 in UTC, gives an
    expiry that is not the creation time plus that many days but some
    37 thousand million years before it, so that the entry is expired
    when it is created.  And [AddDate] moves the calendar day, not the
    instant: where the clocks are put forward in between, 30 days of
    retention end an hour short of 30 times 24 hours. *)
Lemma BeforeCreate_expiry_not_the_sum :
  RecycleItem.ExpiresAt
    (fst (RecycleItem.BeforeCreate GoTime.UTC t2000 long_retention_entry))
  = Some (-1166744072762866816 * GoTime.nanosPerSecond)
  /\ ~ (RecycleItem.ExpiresAt
          (fst (RecycleItem.BeforeCreate GoTime.UTC t2000 long_retention_entry))
        = Some (t2000
                + RecycleItem.AutoDeleteDays
                    (fst (RecycleItem.BeforeCreate GoTime.UTC t2000
                            long_retention_entry))
                  * GoTime.nanosPerDay))
  /\ RecycleItem.IsExpired t2000
       (fst (RecycleItem.BeforeCreate GoTime.UTC t2000 long_retention_entry))
     = true
  /\ ~ (RecycleItem.ExpiresAt
          (fst (RecycleItem.BeforeCreate summer_time_zone t2000 fresh_entry))
        = Some (t2000 + 30 * GoTime.nanosPerDay)).
Proof.
  split; [vm_compute; reflexivity | ].
  split; [vm_compute; discriminate | ].
  split; [vm_compute; reflexivity | ].
  vm_compute. discriminate.
Qed.

(** C5 (amended): [RecycleItem.BeforeCreate] succeeds, defaults an
    empty status to [deleted] and an unset (zero) [AutoDeleteDays] to
    30, and keeps an [expires_at] that was given.  A missing
    [expires_at] is set to the creation time moved [AutoDeleteDays]
    calendar days ahead by [AddDate], in the location of the creation
    time; that is the creation time plus [AutoDeleteDays] times 24
    hours wherever no clock is changed and that sum is a time Go can
    hold. *)
Theorem RecycleItem_BeforeCreate_expiry
        (local : GoTime.Location) (now : GoTime.Time) (ri : RecycleItem.t) :
  let ri' := fst (RecycleItem.BeforeCreate local now ri) in
  snd (RecycleItem.BeforeCreate local now ri) = None
  /\ (RecycleItem.Status ri = EmptyString ->
        RecycleItem.Status ri' = RecycleStatusDeleted)
  /\ (RecycleItem.Status ri <> EmptyString ->
        RecycleItem.Status ri' = RecycleItem.Status ri)
  /\ (RecycleItem.AutoDeleteDays ri = 0 -> RecycleItem.AutoDeleteDays ri' = 30)
  /\ (RecycleItem.AutoDeleteDays ri <> 0 ->
        RecycleItem.AutoDeleteDays ri' = RecycleItem.AutoDeleteDays ri)
  /\ (RecycleItem.ExpiresAt ri = None ->
        RecycleItem.ExpiresAt ri'
        = Some (GoTime.AddDate_days local now (RecycleItem.AutoDeleteDays ri')))
  /\ (RecycleItem.ExpiresAt ri = None ->
      GoTime.no_clock_change local ->
      GoTime.representable
        (now + RecycleItem.AutoDeleteDays ri' * GoTime.nanosPerDay) ->
        RecycleItem.ExpiresAt ri'
        = Some (now + RecycleItem.AutoDeleteDays ri' * GoTime.nanosPerDay))
  /\ (forall e, RecycleItem.ExpiresAt ri = Some e ->
        RecycleItem.ExpiresAt ri' = Some e).
Proof.
  intros ri'.
  pose proof (RecycleItem_BeforeCreate_expiry_facts local now ri)
    as [_ [Hd Hex]].
  fold ri' in Hd, Hex. rewrite <- Hd in Hex.
  assert (Hrest :
    snd (RecycleItem.BeforeCreate local now ri) = None
    /\ (RecycleItem.Status ri = EmptyString ->
          RecycleItem.Status ri' = RecycleStatusDeleted)
    /\ (RecycleItem.Status ri <> EmptyString ->
          RecycleItem.Status ri' = RecycleItem.Status ri)
    /\ (RecycleItem.AutoDeleteDays ri = 0 -> RecycleItem.AutoDeleteDays ri' = 30)
    /\ (RecycleItem.AutoDeleteDays ri <> 0 ->
          RecycleItem.AutoDeleteDays ri' = RecycleItem.AutoDeleteDays ri)
    /\ (forall e, RecycleItem.ExpiresAt ri = Some e ->
          RecycleItem.ExpiresAt ri' = Some e)).
  { subst ri'.
    destruct ri as [da op ra rb pa pb ex opath fn sp ty st fs id uid ofid db days].
    unfold RecycleItem.BeforeCreate.
    generalize (GoTime.AddDate_days local now). intros shift.
    hook_cases;
      repeat match goal with |- _ /\ _ => split end;
      intros; try reflexivity; try congruence; try contradiction. }
  destruct Hrest as [H1 [H2 [H3 [H4 [H5 H6]]]]].
  split; [exact H1 | ]. split; [exact H2 | ]. split; [exact H3 | ].
  split; [exact H4 | ]. split; [exact H5 | ]. split; [exact Hex | ].
  split; [ | exact H6].
  intros He Hloc Hrep. rewrite (Hex He). f_equal.
  apply AddDate_days_exact; assumption.
Qed.

(** The rule at a concrete entry: created in UTC at the start of the
    year 2000 without a retention, it expires 30 days later. *)
Lemma RecycleItem_BeforeCreate_expiry_witness :
  RecycleItem.ExpiresAt (fst (RecycleItem.BeforeCreate GoTime.UTC t2000 fresh_entry))
  = Some (t2000 + 30 * GoTime.nanosPerDay).
Proof.
  apply (proj1 (proj2 (proj2 (proj2 (proj2 (proj2 (proj2
           (RecycleItem_BeforeCreate_expiry GoTime.UTC t2000 fresh_entry)))))))).
  - reflexivity.
  - exact no_clock_change_UTC.
  - vm_compute. split; discriminate.
Defined.

(** The same entries by evaluation, and the one created where the
    clocks change: its 30 days are an hour short. *)
Example fresh_entry_created :
  let ri' := fst (RecycleItem.BeforeCreate GoTime.UTC 500 fresh_entry) in
  RecycleItem.Status ri' = "deleted"%string
  /\ RecycleItem.AutoDeleteDays ri' = 30
  /\ RecycleItem.ExpiresAt ri' = Some (500 + 30 * 86400000000000)
  /\ RecycleItem.ExpiresAt
       (fst (RecycleItem.BeforeCreate summer_time_zone t2000 fresh_entry))
     = Some (t2000 + 30 * GoTime.nanosPerDay - 3600 * GoTime.nanosPerSecond).
Proof. vm_compute. repeat split. Qed.

(** C6, as stated, fails on the code, for the same overflow: a notice of
    [2 ^ 62] days puts the notification date on [expires_at] itself, and
    a notice of the greatest [int] puts it a day after [expires_at]. *)
Lemma GetNotifyDate_not_the_difference :
  RecycleItem.GetNotifyDate GoTime.UTC entry_expiring_in_2000 (2 ^ 62)
  = Some t2000
  /\ ~ (RecycleItem.GetNotifyDate GoTime.UTC entry_expiring_in_2000 (2 ^ 62)
        = Some (t2000 - 2 ^ 62 * GoTime.nanosPerDay))
  /\ RecycleItem.GetNotifyDate GoTime.UTC entry_expiring_in_2000 GoInt.max_int64
     = Some (t2000 + GoTime.nanosPerDay)
  /\ ~ (RecycleItem.GetNotifyDate GoTime.UTC entry_expiring_in_2000
          GoInt.max_int64
        = Some (t2000 - GoInt.max_int64 * GoTime.nanosPerDay)).
Proof.
  split; [vm_compute; reflexivity | ].
  split; [vm_compute; discriminate | ].
  split; [vm_compute; reflexivity | ].
  vm_compute. discriminate.
Qed.

(** C6 (amended): for an entry with a set [expires_at], the
    notification date is [expires_at] moved back [notify_days] calendar
    days by [AddDate] (by the negated day count, in the location of
    [expires_at]); that is [expires_at] minus [notify_days] times 24
    hours wherever no clock is changed and that difference is a time Go
    can hold.  With no [expires_at] there is no notification date, and
    [RecycleBin.BeforeCreate] defaults an unset (zero) [notify_days] to
    7 and keeps any other value. *)
Theorem GetNotifyDate_deadline
        (loc : GoTime.Location) (ri : RecycleItem.t) (rb : RecycleBin.t)
        (notifyDays : Z) :
  (forall e, RecycleItem.ExpiresAt ri = Some e ->
     RecycleItem.GetNotifyDate loc ri notifyDays
     = Some (GoTime.AddDate_days loc e (GoInt.neg64 notifyDays))
     /\ (GoTime.no_clock_change loc ->
         GoTime.representable (e - notifyDays * GoTime.nanosPerDay) ->
           RecycleItem.GetNotifyDate loc ri notifyDays
           = Some (e - notifyDays * GoTime.nanosPerDay)))
  /\ (RecycleItem.ExpiresAt ri = None ->
        RecycleItem.GetNotifyDate loc ri notifyDays = None)
  /\ (RecycleBin.NotifyDays rb = 0 ->
        RecycleBin.NotifyDays (fst (RecycleBin.BeforeCreate rb)) = 7)
  /\ (RecycleBin.NotifyDays rb <> 0 ->
        RecycleBin.NotifyDays (fst (RecycleBin.BeforeCreate rb))
        = RecycleBin.NotifyDays rb).
Proof.
  split; [ | split ].
  - intros e He. unfold RecycleItem.GetNotifyDate.
    rewrite He. split; [reflexivity | ].
    intros Hloc Hrep. f_equal. apply GetNotifyDate_shift; assumption.
  - intros He. unfold RecycleItem.GetNotifyDate. rewrite He. reflexivity.
  - destruct rb as [id uid en days maxs curs maxi curi nb nd td tr tp].
    unfold RecycleBin.BeforeCreate.
    hook_cases; split; intros;
      try reflexivity; try congruence; try contradiction.
Qed.

(** The rule at a concrete entry: created in UTC at the start of the
    year 2000 with the default retention, it expires on day 30, and a 7
    days' notice falls on day 23. *)
Lemma GetNotifyDate_deadline_witness :
  RecycleItem.GetNotifyDate GoTime.UTC
    (fst (RecycleItem.BeforeCreate GoTime.UTC t2000 fresh_entry)) 7
  = Some (t2000 + 30 * GoTime.nanosPerDay - 7 * GoTime.nanosPerDay).
Proof.
  apply (proj2 (proj1 (GetNotifyDate_deadline GoTime.UTC
                         (fst (RecycleItem.BeforeCreate GoTime.UTC t2000
                                 fresh_entry))
                         unset_bin 7)
                      (t2000 + 30 * GoTime.nanosPerDay) eq_refl)).
  - exact no_clock_change_UTC.
  - vm_compute. split; discriminate.
Defined.

(** ** Team members *)

Section TeamMemberFacts.

Import TeamMember.

Lemma CanManageTeam_active_admin (tm : t) :
  CanManageTeam tm = IsActive tm && IsAdmin tm.
Proof.
  unfold CanManageTeam, IsAdmin. f_equal. apply orb_comm.
Qed.

Lemma IsOwner_IsAdmin (tm : t) : IsOwner tm = true -> IsAdmin tm = true.
Proof.
  unfold IsOwner, IsAdmin. intros H. rewrite H. apply orb_true_r.
Qed.

End TeamMemberFacts.

(** C7: a member can manage the team if and only if the member's status
    is [active] and the role is [owner] or [admin]; a [member] or a
    [viewer], and a member in any other status, never can. *)
Theorem CanManageTeam_iff (tm : TeamMember.t) :
  (TeamMember.CanManageTeam tm = true <->
     TeamMember.Status tm = TeamMemberStatusActive /\
     (TeamMember.Role tm = TeamMemberRoleOwner \/
      TeamMember.Role tm = TeamMemberRoleAdmin))
  /\ (TeamMember.Role tm = TeamMemberRoleMember \/
      TeamMember.Role tm = TeamMemberRoleViewer ->
        TeamMember.CanManageTeam tm = false)
  /\ (TeamMember.Status tm <> TeamMemberStatusActive ->
        TeamMember.CanManageTeam tm = false)
  /\ TeamMember.CanManageTeam tm
     = TeamMember.IsActive tm && TeamMember.IsAdmin tm.
Proof.
  split; [ | split; [ | split ] ].
  - unfold TeamMember.CanManageTeam, TeamMember.IsActive.
    rewrite andb_true_iff, orb_true_iff, !String.eqb_eq. reflexivity.
  - unfold TeamMember.CanManageTeam.
    intros [Hr | Hr]; rewrite Hr; apply andb_false_r.
  - unfold TeamMember.CanManageTeam, TeamMember.IsActive. intros Hs.
    apply String.eqb_neq in Hs. rewrite Hs. reflexivity.
  - apply CanManageTeam_active_admin.
Qed.

(** ** Permission grants *)

Section GrantFacts.

Lemma userPermission_IsExpired_iff (now : GoTime.Time) (up : userPermission.t) :
  userPermission.IsExpired now up = true <->
  exists e, userPermission.ExpiresAt up = Some e /\ e < now.
Proof.
  unfold userPermission.IsExpired.
  destruct (userPermission.ExpiresAt up) as [e|].
  - rewrite Before_lt. split.
    + intros H. exists e. split; [reflexivity | exact H].
    + intros [e' [He' Hlt]]. inversion He'. subst e'. exact Hlt.
  - split; [discriminate | intros [e [He _]]; discriminate].
Qed.

Lemma filePermission_IsExpired_iff (now : GoTime.Time) (fp : filePermission.t) :
  filePermission.IsExpired now fp = true <->
  exists e, filePermission.ExpiresAt fp = Some e /\ e < now.
Proof.
  unfold filePermission.IsExpired.
  destruct (filePermission.ExpiresAt fp) as [e|].
  - rewrite Before_lt. split.
    + intros H. exists e. split; [reflexivity | exact H].
    + intros [e' [He' Hlt]]. inversion He'. subst e'. exact Hlt.
  - split; [discriminate | intros [e [He _]]; discriminate].
Qed.

(** An expired grant among the candidates changes nothing. *)
Lemma Resolve_skips_expired (now : GoTime.Time) (g : Resolver.grant)
      (before after : list Resolver.grant) (d : bool) :
  Resolver.expired now g = true ->
  Resolver.Resolve now (before ++ g :: after) d
  = Resolver.Resolve now (before ++ after) d.
Proof.
  intros Hg. induction before as [|h before IH]; cbn [app Resolver.Resolve].
  - rewrite Hg. reflexivity.
  - destruct (Resolver.expired now h); [exact IH | reflexivity].
Qed.

End GrantFacts.

(** C4: a user or file permission grant counts as expired if and only if
    its [expires_at] is set and lies strictly before the current time,
    so a grant without [expires_at] never expires; and a resolver that
    takes the first non-expired matching grant treats an expired grant
    that is still stored as absent: resolving from it alone yields the
    default deny. *)
Theorem grant_expiry_inert
        (now : GoTime.Time) (up : userPermission.t) (fp : filePermission.t) :
  (userPermission.IsExpired now up = true <->
     exists e, userPermission.ExpiresAt up = Some e /\ e < now)
  /\ (filePermission.IsExpired now fp = true <->
        exists e, filePermission.ExpiresAt fp = Some e /\ e < now)
  /\ (userPermission.ExpiresAt up = None ->
        userPermission.IsExpired now up = false)
  /\ (filePermission.ExpiresAt fp = None ->
        filePermission.IsExpired now fp = false)
  /\ (forall g before after d,
        Resolver.expired now g = true ->
        Resolver.Resolve now (before ++ g :: after) d
        = Resolver.Resolve now (before ++ after) d)
  /\ (forall g, Resolver.expired now g = true ->
        Resolver.Resolve now [g] false = false).
Proof.
  split; [ apply userPermission_IsExpired_iff | ].
  split; [ apply filePermission_IsExpired_iff | ].
  split; [ intros H; unfold userPermission.IsExpired; rewrite H; reflexivity | ].
  split; [ intros H; unfold filePermission.IsExpired; rewrite H; reflexivity | ].
  split.
  - intros g before after d Hg. apply Resolve_skips_expired. exact Hg.
  - intros g Hg. cbn [Resolver.Resolve]. rewrite Hg. reflexivity.
Qed.

Example stale_share_denied :
  filePermission.IsExpired 200 stale_share = true
  /\ filePermission.Allowed stale_share = true
  /\ Resolver.Resolve 200 [Resolver.OfFile stale_share] false = false
  /\ Resolver.Resolve 100 [Resolver.OfFile stale_share] false = true.
Proof. repeat split. Qed.

(** ** Quota checks *)

Section QuotaFacts.


(** A disabled or inactive store, and a file over the per-file
    maximum, are refused before the quota is looked at. *)
Lemma CanUpload_gates (stc : storageConfig.t) (fileSize : Z) :
  storageConfig.IsEnabled stc = false
  \/ storageConfig.IsActive stc = false
  \/ storageConfig.MaxFileSize stc < fileSize ->
  storageConfig.CanUpload stc fileSize = false.
Proof.
  unfold storageConfig.CanUpload. intros [H | [H | H]].
  - rewrite H. reflexivity.
  - rewrite H. rewrite orb_true_r. reflexivity.
  - destruct (negb (storageConfig.IsEnabled stc)
              || negb (storageConfig.IsActive stc)); [reflexivity|].
    replace (fileSize >? storageConfig.MaxFileSize stc) with true
      by (symmetry; rewrite Z.gtb_ltb; apply Z.ltb_lt; exact H).
    reflexivity.
Qed.

(** A quota of zero means no limit. *)
Lemma CanUpload_unlimited (stc : storageConfig.t) (fileSize : Z) :
  storageConfig.IsEnabled stc = true ->
  storageConfig.IsActive stc = true ->
  storageConfig.QuotaSize stc = 0 ->
  fileSize <= storageConfig.MaxFileSize stc ->
  storageConfig.CanUpload stc fileSize = true.
Proof.
  intros Hen Hact Hq Hmax. unfold storageConfig.CanUpload.
  rewrite Hen, Hact, Hq. cbn [negb orb].
  replace (fileSize >? storageConfig.MaxFileSize stc) with false
    by (symmetry; rewrite Z.gtb_ltb; apply Z.ltb_ge; exact Hmax).
  reflexivity.
Qed.

(** The user-level flag takes no delta: it is raised as soon as the
    quota is reached. *)
Lemma IsStorageExceeded_iff (u : User.t) :
  User.IsStorageExceeded u = true <-> User.StorageQuota u <= User.UsedStorage u.
Proof.
  unfold User.IsStorageExceeded. rewrite Z.geb_le. reflexivity.
Qed.

End QuotaFacts.



(** ** The quota invariant *)

Section LedgerFacts.

Import Ledger.

Lemma total_size_nonneg (sizes : list N) : 0 <= total_size sizes.
Proof.
  induction sizes as [|n rest IH]; cbn [total_size fold_right].
  - lia.
  - fold (total_size rest). lia.
Qed.

Lemma total_size_remove_nth (sizes : list N) (i : nat) (n : N) :
  nth_error sizes i = Some n ->
  total_size (remove_nth i sizes) = total_size sizes - Z.of_N n.
Proof.
  revert i. induction sizes as [|m rest IH]; intros i Hi.
  - destruct i; discriminate.
  - destruct i as [|j]; cbn [nth_error remove_nth] in *.
    + inversion Hi. subst m. cbn [total_size fold_right].
      fold (total_size rest). lia.
    + cbn [total_size fold_right]. fold (total_size (remove_nth j rest)).
      fold (total_size rest). rewrite (IH j Hi). lia.
Qed.

(** Giving back what was just reserved restores the row. *)
Lemma Release_after_Reserve (u u' : User.t) (tm tm' : option Team.t) (d : Z) :
  GoInt.in_int64 (User.UsedStorage u) ->
  Reserve u tm d = ((u', tm'), None) ->
  fst (Release u' tm' d) = u.
Proof.
  intros Hu. unfold Reserve.
  destruct (User.UsedStorage u + d >? User.StorageQuota u); [discriminate | ].
  assert (Hback : Lifecycle.Release
                    (User.set_UsedStorage (User.UsedStorage u + d) u) d = u).
  { unfold Lifecycle.Release. destruct u as [id nm ut st q used tpl lock].
    cbn in *. unfold GoInt.sub64.
    replace (used + d - d) with used by ring.
    rewrite (wrap64_in_range used Hu). reflexivity. }
  destruct tm as [t0|].
  - destruct (Team.StorageUsed t0 + d >? Team.StorageLimit t0);
      [discriminate | ].
    intros H. inversion H. subst. exact Hback.
  - intros H. inversion H. subst. exact Hback.
Qed.

(** Every operation keeps an account balanced. *)
Lemma step_balanced (s : account) (o : operation) :
  balanced s -> balanced (step s o).
Proof.
  intros [Hsum [Hle Hmax]].
  pose proof (total_size_nonneg (owned s)) as Hpos.
  destruct o as [size team written | i | i | i team]; cbn [step].
  - destruct (Reserve (principal s) team (Z.of_N size))
      as [[u' tm'] [err|]] eqn:Hres.
    + split; [exact Hsum | split; assumption].
    + destruct written.
      * revert Hres. unfold Reserve.
        destruct (Z.gtb_spec (User.UsedStorage (principal s) + Z.of_N size)
                             (User.StorageQuota (principal s))) as [Hgt|Hfit];
          [discriminate | ].
        assert (Hok : balanced
                        (mkAccount
                           (User.set_UsedStorage
                              (User.UsedStorage (principal s) + Z.of_N size)
                              (principal s))
                           (size :: owned s))).
        { unfold balanced. cbn. fold (total_size (owned s)).
          unfold GoInt.max_int64 in *. lia. }
        destruct team as [t0|].
        -- destruct (Team.StorageUsed t0 + Z.of_N size >? Team.StorageLimit t0);
             [discriminate | ].
           intros H. inversion H. subst. exact Hok.
        -- intros H. inversion H. subst. exact Hok.
      * rewrite (Release_after_Reserve (principal s) u' team tm' _
                   ltac:(unfold GoInt.in_int64, GoInt.min_int64,
                           GoInt.max_int64 in *; lia) Hres).
        split; [exact Hsum | split; assumption].
  - split; [exact Hsum | split; assumption].
  - split; [exact Hsum | split; assumption].
  - destruct (nth_error (owned s) i) as [size|] eqn:Hi.
    + pose proof (total_size_remove_nth (owned s) i size Hi) as Hrm.
      pose proof (total_size_nonneg (remove_nth i (owned s))) as Hpos'.
      unfold balanced, Release, Lifecycle.Release. cbn.
      fold (total_size (remove_nth i (owned s))).
      rewrite sub64_exact
        by (unfold GoInt.in_int64, GoInt.min_int64, GoInt.max_int64 in *; lia).
      unfold GoInt.max_int64 in *. lia.
    + split; [exact Hsum | split; assumption].
Qed.

Lemma run_balanced (ops : list operation) (s : account) :
  balanced s -> balanced (run s ops).
Proof.
  revert s. induction ops as [|o rest IH]; intros s Hs; cbn.
  - exact Hs.
  - apply IH. apply step_balanced. exact Hs.
Qed.

(** A new account is balanced: nothing is used and nothing is owned. *)
Lemma register_balanced (u : User.t) :
  User.UsedStorage u = 0 ->
  0 <= User.StorageQuota u <= GoInt.max_int64 ->
  balanced (register u).
Proof.
  intros Hused Hq. destruct u as [id nm ut st q used tpl lock].
  cbn in Hused, Hq. subst used.
  unfold register, balanced, User.BeforeCreate.
  hook_cases; unfold GoInt.max_int64 in *; lia.
Qed.

End LedgerFacts.

(** C3: in every state that the engine's operations reach from the
    registration of a user, [quota_used] is non-negative and at most
    [quota_total], it is the sum of the sizes of the resources that
    still count, and [GetAvailableStorage] is not negative. *)
Theorem quota_invariant_reachable (u : User.t) (ops : list Ledger.operation) :
  User.UsedStorage u = 0 ->
  0 <= User.StorageQuota u <= GoInt.max_int64 ->
  let s := Ledger.run (Ledger.register u) ops in
  0 <= User.UsedStorage (Ledger.principal s)
  /\ User.UsedStorage (Ledger.principal s)
     <= User.StorageQuota (Ledger.principal s)
  /\ 0 <= User.GetAvailableStorage (Ledger.principal s)
  /\ User.UsedStorage (Ledger.principal s)
     = Ledger.total_size (Ledger.owned s).
Proof.
  intros Hused Hq s.
  destruct (run_balanced ops _ (register_balanced u Hused Hq))
    as [Hsum [Hle Hmax]].
  fold s in Hsum, Hle, Hmax.
  pose proof (total_size_nonneg (Ledger.owned s)) as Hpos.
  split; [lia | ]. split; [exact Hle | ]. split; [ | exact Hsum].
  unfold User.GetAvailableStorage.
  rewrite sub64_exact
    by (unfold GoInt.in_int64, GoInt.min_int64, GoInt.max_int64 in *; lia).
  lia.
Qed.

(** The invariant after a day's operations on an account of 100 bytes:
    15 bytes are left in use. *)
Lemma quota_invariant_reachable_witness :
  0 <= User.GetAvailableStorage
         (Ledger.principal (Ledger.run (Ledger.register new_user) busy_day))
  /\ User.UsedStorage
       (Ledger.principal (Ledger.run (Ledger.register new_user) busy_day))
     = 15.
Proof.
  assert (Hq : 0 <= User.StorageQuota new_user <= GoInt.max_int64)
    by (unfold GoInt.max_int64; cbn; lia).
  pose proof (quota_invariant_reachable new_user busy_day eq_refl Hq)
    as [_ [_ [Havail Hsum]]].
  split; [exact Havail | exact Hsum].
Defined.

(** ** Recycle bin capacity *)

Section RecycleBinFacts.

Import RecycleBin.

Lemma IsStorageFull_iff (rb : t) :
  IsStorageFull rb = true <-> MaxStorageSize rb <= CurrentStorageSize rb.
Proof. unfold IsStorageFull. rewrite Z.geb_le. reflexivity. Qed.

Lemma IsItemCountFull_iff (rb : t) :
  IsItemCountFull rb = true <-> MaxItemCount rb <= CurrentItemCount rb.
Proof. unfold IsItemCountFull. rewrite Z.geb_le. reflexivity. Qed.

Lemma BeforeCreate_counters (rb : t) :
  CurrentStorageSize (fst (BeforeCreate rb)) = CurrentStorageSize rb
  /\ CurrentItemCount (fst (BeforeCreate rb)) = CurrentItemCount rb.
Proof.
  destruct rb as [id uid en days maxs curs maxi curi nb nd td tr tp].
  unfold BeforeCreate. hook_cases; split; reflexivity.
Qed.

Lemma BeforeCreate_maxima (rb : t) :
  MaxStorageSize (fst (BeforeCreate rb))
  = (if MaxStorageSize rb =? 0 then 1073741824 else MaxStorageSize rb)
  /\ MaxItemCount (fst (BeforeCreate rb))
     = (if MaxItemCount rb =? 0 then 1000 else MaxItemCount rb).
Proof.
  destruct rb as [id uid en days maxs curs maxi curi nb nd td tr tp].
  unfold BeforeCreate. hook_cases; split; reflexivity.
Qed.

End RecycleBinFacts.

(** ** Purge *)

Section PurgeFacts.

Import Lifecycle.

Lemma Purge_permanent_noop (now : GoTime.Time) (who : purger) (w : world) :
  RecycleItem.IsPermanentDeleted (entry w) = true ->
  Purge now who w = (w, None).
Proof. intros H. unfold Purge. rewrite H. reflexivity. Qed.

Lemma mark_permanent_is_permanent (now : GoTime.Time) (by_ : option Z)
      (ri : RecycleItem.t) :
  RecycleItem.IsPermanentDeleted (mark_permanent now by_ ri) = true.
Proof. reflexivity. Qed.

(** Whatever a successful purge started from, it ends on a permanent
    entry. *)
Lemma Purge_success_permanent (now : GoTime.Time) (who : purger)
      (w w' : world) :
  Purge now who w = (w', None) ->
  RecycleItem.IsPermanentDeleted (entry w') = true.
Proof.
  unfold Purge.
  destruct (RecycleItem.IsPermanentDeleted (entry w)) eqn:Hp.
  - intros H. inversion H. subst w'. exact Hp.
  - destruct (negb (RecycleItem.IsDeleted (entry w))); [discriminate|].
    destruct (negb (may_purge now who (entry w))); [discriminate|].
    intros H. inversion H. apply mark_permanent_is_permanent.
Qed.

(** A refused purge leaves the world as it was. *)
Lemma Purge_failure_unchanged (now : GoTime.Time) (who : purger)
      (w w' : world) (err : purge_error) :
  Purge now who w = (w', Some err) -> w' = w.
Proof.
  unfold Purge.
  destruct (RecycleItem.IsPermanentDeleted (entry w)); [discriminate|].
  destruct (negb (RecycleItem.IsDeleted (entry w)));
    [intros H; inversion H; reflexivity|].
  destruct (negb (may_purge now who (entry w)));
    [intros H; inversion H; reflexivity | discriminate].
Qed.

End PurgeFacts.

(** C9: purging an entry whose status is already [permanent] returns
    success and leaves the entry, the resource, the quota and the byte
    store as they were; hence a purge that succeeded, purged again by
    anyone at any time, changes nothing, and purging twice is purging
    once. *)
Theorem Purge_idempotent
        (now : GoTime.Time) (who : Lifecycle.purger) (w : Lifecycle.world) :
  (RecycleItem.IsPermanentDeleted (Lifecycle.entry w) = true ->
     Lifecycle.Purge now who w = (w, None))
  /\ (forall w', Lifecycle.Purge now who w = (w', None) ->
        forall now' who', Lifecycle.Purge now' who' w' = (w', None))
  /\ Lifecycle.Purge now who (fst (Lifecycle.Purge now who w))
     = Lifecycle.Purge now who w.
Proof.
  split; [apply Purge_permanent_noop | ].
  split.
  - intros w' H now' who'. apply Purge_permanent_noop.
    apply (Purge_success_permanent now who w w' H).
  - destruct (Lifecycle.Purge now who w) as [w' [err|]] eqn:H.
    + pose proof (Purge_failure_unchanged now who w w' err H) as Hw.
      subst w'. cbn [fst]. exact H.
    + cbn [fst]. apply Purge_permanent_noop.
      apply (Purge_success_permanent now who w w' H).
Qed.

(** The sweep on day 31 purges the entry, gives the 80 bytes back and
    calls the byte store once; the sweep on day 32 finds it permanent;
    a sweep on day 29 would have been refused. *)
Example sweep_then_sweep_again :
  let once := Lifecycle.Purge (31 * one_day) Lifecycle.SystemSweep recycled_world in
  let twice := Lifecycle.Purge (32 * one_day) Lifecycle.SystemSweep (fst once) in
  snd once = None
  /\ Lifecycle.resource (fst once) = Lifecycle.purged
  /\ User.UsedStorage (Lifecycle.owner (fst once)) = 0
  /\ Lifecycle.deletedBytes (fst once) = ["store/a"%string]
  /\ twice = (fst once, None)
  /\ snd (Lifecycle.Purge (29 * one_day) Lifecycle.SystemSweep recycled_world)
     = Some Lifecycle.Denied.
Proof. vm_compute. repeat split. Qed.

(** ** Usage percentages *)

Section UsageFacts.

(** What the zero test keeps out: a division by [float64(0)]. *)
Example percent_by_zero :
  PrimFloat.is_nan (GoFloat.percent 0 0) = true
  /\ GoFloat.percent 5 0 = infinity.
Proof. split; reflexivity. Qed.

Example float64_of_int_rounds :
  GoFloat.float64_of_int 1073741824 = 1073741824%float
  /\ GoFloat.float64_of_int (- 3) = (-3)%float
  /\ GoFloat.float64_of_int (2 ^ 53 + 1) = 9007199254740992%float.
Proof. repeat split; reflexivity. Qed.

End UsageFacts.

(** C10: the three usage percentages are defined on every record: with
    a maximum of 0 they are 0, and otherwise they are
    [float64(current) / float64(maximum) * 100]. *)
Theorem usage_percent_total (rb : RecycleBin.t) (stc : storageConfig.t) :
  (RecycleBin.MaxStorageSize rb = 0 ->
     RecycleBin.GetStorageUsagePercent rb = 0%float)
  /\ (RecycleBin.MaxStorageSize rb <> 0 ->
        RecycleBin.GetStorageUsagePercent rb
        = (GoFloat.float64_of_int (RecycleBin.CurrentStorageSize rb)
           / GoFloat.float64_of_int (RecycleBin.MaxStorageSize rb) * 100)%float)
  /\ (RecycleBin.MaxItemCount rb = 0 ->
        RecycleBin.GetItemUsagePercent rb = 0%float)
  /\ (RecycleBin.MaxItemCount rb <> 0 ->
        RecycleBin.GetItemUsagePercent rb
        = (GoFloat.float64_of_int (RecycleBin.CurrentItemCount rb)
           / GoFloat.float64_of_int (RecycleBin.MaxItemCount rb) * 100)%float)
  /\ (storageConfig.QuotaSize stc = 0 ->
        storageConfig.GetUsagePercent stc = 0%float)
  /\ (storageConfig.QuotaSize stc <> 0 ->
        storageConfig.GetUsagePercent stc
        = (GoFloat.float64_of_int (storageConfig.UsedSize stc)
           / GoFloat.float64_of_int (storageConfig.QuotaSize stc) * 100)%float).
Proof.
  unfold RecycleBin.GetStorageUsagePercent,
    RecycleBin.GetItemUsagePercent, storageConfig.GetUsagePercent,
    GoFloat.percent.
  repeat match goal with |- _ /\ _ => split end; intros H;
    first [ rewrite H; reflexivity
          | apply Z.eqb_neq in H; rewrite H; reflexivity ].
Qed.

Example usage_percent_values :
  RecycleBin.GetStorageUsagePercent
    (RecycleBin.mk 1 1 true 30 1073741824 536870912 1000 250 true 7 0 0 0)
  = 50%float
  /\ RecycleBin.GetItemUsagePercent
       (RecycleBin.mk 1 1 true 30 1073741824 536870912 1000 250 true 7 0 0 0)
     = 25%float
  /\ RecycleBin.GetStorageUsagePercent crowded_bin = 0%float
  /\ storageConfig.GetUsagePercent small_store = 20%float.
Proof. repeat split; reflexivity. Qed.

(** * Further properties of the models *)

(** ** Recycle entries over time *)

(** The three status predicates of a recycle entry exclude one
    another, and so do its two type predicates. *)
Theorem recycle_status_exclusive (ri : RecycleItem.t) :
  (RecycleItem.IsDeleted ri = true ->
     RecycleItem.IsRestored ri = false
     /\ RecycleItem.IsPermanentDeleted ri = false)
  /\ (RecycleItem.IsRestored ri = true ->
        RecycleItem.IsDeleted ri = false
        /\ RecycleItem.IsPermanentDeleted ri = false)
  /\ (RecycleItem.IsPermanentDeleted ri = true ->
        RecycleItem.IsDeleted ri = false /\ RecycleItem.IsRestored ri = false)
  /\ (RecycleItem.IsFile ri = true -> RecycleItem.IsFolder ri = false).
Proof.
  unfold RecycleItem.IsDeleted, RecycleItem.IsRestored,
    RecycleItem.IsPermanentDeleted, RecycleItem.IsFile, RecycleItem.IsFolder.
  repeat match goal with |- _ /\ _ => split end;
    intros H; apply String.eqb_eq in H; rewrite H;
    repeat split; reflexivity.
Qed.

(** X1: expiry only moves one way: an entry expired at some time is
    expired at every later time, and an entry restorable at some time
    was restorable at every earlier time. *)
Theorem recycle_expiry_monotone
        (now later : GoTime.Time) (ri : RecycleItem.t) :
  now <= later ->
  (RecycleItem.IsExpired now ri = true -> RecycleItem.IsExpired later ri = true)
  /\ (RecycleItem.CanRestore later ri = true ->
        RecycleItem.CanRestore now ri = true).
Proof.
  intros Hle. split.
  - intros H. apply IsExpired_iff in H. destruct H as [e [He Hlt]].
    apply IsExpired_iff. exists e. split; [exact He | lia].
  - intros H. apply CanRestore_unfold in H. destruct H as [Hs H].
    apply CanRestore_unfold. split; [exact Hs | ].
    apply IsExpired_false_iff. intros e He.
    pose proof (proj1 (IsExpired_false_iff later ri) H e He). lia.
Qed.

Lemma recycle_expiry_monotone_witness :
  RecycleItem.IsExpired 1001 entry_expiring_at_1000 = true
  /\ RecycleItem.IsExpired 2000 entry_expiring_at_1000 = true
  /\ RecycleItem.CanRestore 10 entry_expiring_at_1000 = true.
Proof.
  assert (H1 : 1001 <= 2000) by lia.
  assert (H2 : 10 <= 1000) by lia.
  split; [reflexivity | split].
  - exact (proj1 (recycle_expiry_monotone 1001 2000 entry_expiring_at_1000 H1)
                 eq_refl).
  - exact (proj2 (recycle_expiry_monotone 10 1000 entry_expiring_at_1000 H2)
                 eq_refl).
Defined.

(** X2: the creation hooks of the recycle bin models are idempotent:
    running [BeforeCreate] again, at any later time and in any location,
    on a record it has already filled in changes nothing. *)
Theorem recycle_hooks_idempotent
        (local local' : GoTime.Location) (now later : GoTime.Time)
        (ri : RecycleItem.t) (rb : RecycleBin.t) :
  RecycleItem.BeforeCreate local' later
    (fst (RecycleItem.BeforeCreate local now ri))
  = RecycleItem.BeforeCreate local now ri
  /\ RecycleBin.BeforeCreate (fst (RecycleBin.BeforeCreate rb))
     = RecycleBin.BeforeCreate rb.
Proof.
  split.
  - destruct ri as [da op ra rs pa pb ex opath fn sp ty st fs id uid ofid db days].
    unfold RecycleItem.BeforeCreate.
    generalize (GoTime.AddDate_days local now). intros shift.
    generalize (GoTime.AddDate_days local' later). intros shift'.
    hook_cases; try reflexivity; try discriminate; try contradiction.
  - destruct rb as [id uid en days maxs curs maxi curi nb nd td tr tp].
    unfold RecycleBin.BeforeCreate.
    hook_cases; try reflexivity; try discriminate; try contradiction.
Qed.

(** X3: an entry handed to [BeforeCreate] without status and without
    expiry, in a location where no clock is changed and with a retention
    that ends at a time Go can hold, can be restored exactly until its
    retention has run out, counted from the time of creation: at time
    [t] it is restorable if and only if [t] is at most the creation time
    plus the retention. *)
Theorem created_entry_restore_window
        (local : GoTime.Location) (now t : GoTime.Time) (ri : RecycleItem.t) :
  RecycleItem.Status ri = EmptyString ->
  RecycleItem.ExpiresAt ri = None ->
  GoTime.no_clock_change local ->
  GoTime.representable (now + retention_days ri * GoTime.nanosPerDay) ->
  (RecycleItem.CanRestore t (fst (RecycleItem.BeforeCreate local now ri)) = true
   <-> t <= now + retention_days ri * GoTime.nanosPerDay).
Proof.
  intros Hs He Hloc Hrep.
  pose proof (RecycleItem_BeforeCreate_expiry_facts local now ri)
    as [Hst [_ Hex]].
  rewrite CanRestore_unfold, IsExpired_false_iff.
  rewrite (Hst Hs), (Hex He). fold (retention_days ri).
  rewrite (AddDate_days_exact local now (retention_days ri) Hloc Hrep).
  split.
  - intros [_ H]. apply H. reflexivity.
  - intros H. split; [reflexivity | ].
    intros e Heq. inversion Heq. subst e. exact H.
Qed.

(** An entry created in a location two hours east of UTC at the start
    of the year 2000 can still be restored 30 days later to the
    nanosecond. *)
Lemma created_entry_restore_window_witness :
  RecycleItem.CanRestore (t2000 + 30 * GoTime.nanosPerDay)
    (fst (RecycleItem.BeforeCreate (GoTime.FixedZone 7200) t2000 fresh_entry))
  = true.
Proof.
  apply (created_entry_restore_window (GoTime.FixedZone 7200) t2000
           (t2000 + 30 * GoTime.nanosPerDay) fresh_entry eq_refl eq_refl
           (no_clock_change_FixedZone 7200)).
  - vm_compute. split; discriminate.
  - vm_compute. discriminate.
Defined.

(** X4: with a notice of zero or more days, in a location where no
    clock is changed and with a notification date that Go can hold, the
    notification date of an entry is never after its expiry, the entry
    is not yet expired at its notification date, and a notice of zero
    days falls on the expiry itself. *)
Theorem notify_date_before_expiry
        (loc : GoTime.Location) (ri : RecycleItem.t) (notifyDays : Z)
        (e : GoTime.Time) :
  0 <= notifyDays ->
  GoTime.no_clock_change loc ->
  GoTime.representable (e - notifyDays * GoTime.nanosPerDay) ->
  RecycleItem.ExpiresAt ri = Some e ->
  exists n,
    RecycleItem.GetNotifyDate loc ri notifyDays = Some n
    /\ n <= e
    /\ RecycleItem.IsExpired n ri = false
    /\ (notifyDays = 0 -> n = e).
Proof.
  intros Hnd Hloc Hrep He.
  exists (e - notifyDays * GoTime.nanosPerDay).
  assert (Hday : 0 < GoTime.nanosPerDay) by reflexivity.
  assert (Hle : e - notifyDays * GoTime.nanosPerDay <= e) by nia.
  split; [ | split; [exact Hle | split] ].
  - unfold RecycleItem.GetNotifyDate. rewrite He. f_equal.
    apply GetNotifyDate_shift; assumption.
  - apply IsExpired_false_iff. intros e' He'. rewrite He in He'.
    inversion He'. subst e'. exact Hle.
  - intros H0. rewrite H0. lia.
Qed.

(** A week's notice for the entry that expires at the start of the
    year 2000. *)
Lemma notify_date_before_expiry_witness :
  exists n,
    RecycleItem.GetNotifyDate GoTime.UTC entry_expiring_in_2000 7 = Some n
    /\ n <= t2000
    /\ RecycleItem.IsExpired n entry_expiring_in_2000 = false
    /\ (7 = 0 -> n = t2000).
Proof.
  apply (notify_date_before_expiry GoTime.UTC entry_expiring_in_2000 7 t2000).
  - lia.
  - exact no_clock_change_UTC.
  - vm_compute. split; discriminate.
  - reflexivity.
Defined.

(** ** Grants, roles and locks over time *)

Lemma userRole_IsExpired_iff (now : GoTime.Time) (ur : userRole.t) :
  userRole.IsExpired now ur = true <->
  exists e, userRole.ExpiresAt ur = Some e /\ e < now.
Proof.
  unfold userRole.IsExpired.
  destruct (userRole.ExpiresAt ur) as [e|].
  - rewrite Before_lt. split.
    + intros H. exists e. split; [reflexivity | exact H].
    + intros [e' [He' Hlt]]. inversion He'. subst e'. exact Hlt.
  - split; [discriminate | intros [e [He _]]; discriminate].
Qed.

(** X5: a user permission, a file permission or a user role that has
    expired stays expired at every later time. *)
Theorem grant_expiry_monotone
        (now later : GoTime.Time)
        (up : userPermission.t) (fp : filePermission.t) (ur : userRole.t) :
  now <= later ->
  (userPermission.IsExpired now up = true ->
     userPermission.IsExpired later up = true)
  /\ (filePermission.IsExpired now fp = true ->
        filePermission.IsExpired later fp = true)
  /\ (userRole.IsExpired now ur = true -> userRole.IsExpired later ur = true).
Proof.
  intros Hle. split; [ | split ]; intros H.
  - apply userPermission_IsExpired_iff in H. destruct H as [e [He Hlt]].
    apply userPermission_IsExpired_iff. exists e. split; [exact He | lia].
  - apply filePermission_IsExpired_iff in H. destruct H as [e [He Hlt]].
    apply filePermission_IsExpired_iff. exists e. split; [exact He | lia].
  - apply userRole_IsExpired_iff in H. destruct H as [e [He Hlt]].
    apply userRole_IsExpired_iff. exists e. split; [exact He | lia].
Qed.

Lemma grant_expiry_monotone_witness :
  filePermission.IsExpired 200 stale_share = true
  /\ filePermission.IsExpired 300 stale_share = true.
Proof.
  assert (H : 200 <= 300) by lia.
  split; [reflexivity | ].
  exact (proj1 (proj2 (grant_expiry_monotone 200 300
                         (userPermission.mk 1 1 "file"%string None "read"%string true None 0 None)
                         stale_share
                         (userRole.mk 1 1 1 None 0 None) H))
               eq_refl).
Defined.

(** X6: a user is locked exactly while the current time is strictly
    before [LockedUntil]; a user with no [LockedUntil] is never locked,
    the lock is over at the instant [LockedUntil] itself, and once it is
    over it stays over. *)
Theorem IsLocked_window (now : GoTime.Time) (u : User.t) :
  (User.IsLocked now u = true <->
     exists l, User.LockedUntil u = Some l /\ now < l)
  /\ (forall l, User.LockedUntil u = Some l -> User.IsLocked l u = false)
  /\ (forall later, now <= later ->
        User.IsLocked now u = false -> User.IsLocked later u = false).
Proof.
  unfold User.IsLocked. destruct (User.LockedUntil u) as [l|].
  - split; [ | split ].
    + rewrite After_lt. split.
      * intros H. exists l. split; [reflexivity | exact H].
      * intros [l' [Hl' Hlt]]. inversion Hl'. subst l'. exact Hlt.
    + intros l' Hl'. inversion Hl'. subst l'.
      apply After_false_le. lia.
    + intros later Hle H. apply After_false_le in H.
      apply After_false_le. lia.
  - split; [ | split ].
    + split; [discriminate | intros [l [Hl _]]; discriminate].
    + intros l Hl. discriminate.
    + reflexivity.
Qed.

(** ** Quotas of users, teams and stores *)

(** X7: for a user whose usage and quota are non-negative, the storage
    is reported exceeded exactly when no available space is left. *)
Theorem User_exceeded_iff_no_space (u : User.t) :
  0 <= User.UsedStorage u <= GoInt.max_int64 ->
  0 <= User.StorageQuota u <= GoInt.max_int64 ->
  (User.IsStorageExceeded u = true <-> User.GetAvailableStorage u <= 0).
Proof.
  intros Hused Hquota. unfold User.IsStorageExceeded, User.GetAvailableStorage.
  rewrite sub64_exact
    by (unfold GoInt.in_int64, GoInt.min_int64, GoInt.max_int64 in *; lia).
  rewrite Z.geb_le. lia.
Qed.

Lemma User_exceeded_iff_no_space_witness :
  User.IsStorageExceeded light_user = true
  <-> User.GetAvailableStorage light_user <= 0.
Proof.
  apply (User_exceeded_iff_no_space light_user);
    unfold GoInt.max_int64; cbn; lia.
Defined.

(** X8: for a team whose usage and limit are non-negative, the storage
    is reported exceeded exactly when no available space is left, and
    the available space is the limit minus the usage. *)
Theorem Team_exceeded_iff_no_space (tm : Team.t) :
  0 <= Team.StorageUsed tm <= GoInt.max_int64 ->
  0 <= Team.StorageLimit tm <= GoInt.max_int64 ->
  Team.GetAvailableStorage tm = Team.StorageLimit tm - Team.StorageUsed tm
  /\ (Team.IsStorageExceeded tm = true <-> Team.GetAvailableStorage tm <= 0).
Proof.
  intros Hused Hlimit. unfold Team.IsStorageExceeded, Team.GetAvailableStorage.
  rewrite sub64_exact
    by (unfold GoInt.in_int64, GoInt.min_int64, GoInt.max_int64 in *; lia).
  split; [reflexivity | ]. rewrite Z.geb_le. lia.
Qed.

(** X9: a team created without a storage limit gets 50 GiB: after the
    hook it is over its limit exactly when it uses 50 GiB or more, its
    available space is the [int64] difference of 50 GiB and what it
    uses, and that is 50 GiB minus the usage whenever the usage is at
    least 50 GiB minus the greatest [int64], in particular whenever it
    is not negative. *)
Theorem created_team_storage (tm : Team.t) :
  Team.StorageLimit tm = 0 ->
  (Team.IsStorageExceeded (fst (Team.BeforeCreate tm)) = true
   <-> 53687091200 <= Team.StorageUsed tm)
  /\ Team.GetAvailableStorage (fst (Team.BeforeCreate tm))
     = GoInt.sub64 53687091200 (Team.StorageUsed tm)
  /\ (53687091200 - GoInt.max_int64 <= Team.StorageUsed tm <= GoInt.max_int64 ->
        Team.GetAvailableStorage (fst (Team.BeforeCreate tm))
        = 53687091200 - Team.StorageUsed tm).
Proof.
  intros Hl.
  destruct tm as [nm ds st used lim id cr mm mc fc pub].
  cbn [Team.StorageLimit Team.StorageUsed] in *. subst lim.
  unfold Team.BeforeCreate, Team.IsStorageExceeded, Team.GetAvailableStorage.
  hook_cases;
    (split; [rewrite Z.geb_le; lia | split; [reflexivity | ] ]);
    intros Hused; apply sub64_exact;
    unfold GoInt.in_int64, GoInt.min_int64, GoInt.max_int64 in *; lia.
Qed.

Lemma Team_exceeded_iff_no_space_witness :
  Team.GetAvailableStorage (fst (Team.BeforeCreate new_team)) = 53687091200.
Proof.
  apply (Team_exceeded_iff_no_space (fst (Team.BeforeCreate new_team)));
    unfold GoInt.max_int64; cbn; lia.
Defined.

Lemma created_team_storage_witness :
  (Team.IsStorageExceeded (fst (Team.BeforeCreate new_team)) = true
   <-> 53687091200 <= 0)
  /\ Team.GetAvailableStorage (fst (Team.BeforeCreate new_team)) = 53687091200.
Proof.
  pose proof (created_team_storage new_team eq_refl) as [Hiff [_ Hdiff]].
  split; [exact Hiff | ].
  apply Hdiff. unfold GoInt.max_int64. cbn. lia.
Defined.

(** X10: after the creation hook a member can manage the team if and
    only if the status was unset or [active] and the role was [owner] or
    [admin]; in particular a member created without a role, who becomes
    a plain [member], cannot. *)
Theorem created_member_management (tm : TeamMember.t) :
  (TeamMember.CanManageTeam (fst (TeamMember.BeforeCreate tm)) = true <->
     (TeamMember.Status tm = EmptyString
      \/ TeamMember.Status tm = TeamMemberStatusActive)
     /\ (TeamMember.Role tm = TeamMemberRoleOwner
         \/ TeamMember.Role tm = TeamMemberRoleAdmin))
  /\ (TeamMember.Role tm = EmptyString ->
        TeamMember.CanManageTeam (fst (TeamMember.BeforeCreate tm)) = false).
Proof.
  assert (Hspec : forall m,
             TeamMember.CanManageTeam m = true <->
             TeamMember.Status m = TeamMemberStatusActive
             /\ (TeamMember.Role m = TeamMemberRoleOwner
                 \/ TeamMember.Role m = TeamMemberRoleAdmin)).
  { intros m. unfold TeamMember.CanManageTeam, TeamMember.IsActive.
    rewrite andb_true_iff, orb_true_iff, !String.eqb_eq. reflexivity. }
  assert (Hmain :
            TeamMember.CanManageTeam (fst (TeamMember.BeforeCreate tm)) = true <->
            (TeamMember.Status tm = EmptyString
             \/ TeamMember.Status tm = TeamMemberStatusActive)
            /\ (TeamMember.Role tm = TeamMemberRoleOwner
                \/ TeamMember.Role tm = TeamMemberRoleAdmin)).
  { rewrite Hspec. destruct tm as [id tid uid role st].
    unfold TeamMember.BeforeCreate.
    hook_cases; subst;
      unfold TeamMemberStatusActive, TeamMemberRoleOwner, TeamMemberRoleAdmin,
        TeamMemberRoleMember;
      intuition (try discriminate; try congruence). }
  split; [exact Hmain | ].
  intros Hr.
  destruct (TeamMember.CanManageTeam (fst (TeamMember.BeforeCreate tm))) eqn:Hc;
    [exfalso | reflexivity].
  destruct (proj1 Hmain eq_refl) as [_ [Ho | Ha]];
    rewrite Hr in *; discriminate.
Qed.

(** X11: a store whose quota is reported exceeded refuses every upload
    of at least one byte (the sum taken where it is representable). *)
Theorem quota_exceeded_refuses_uploads (stc : storageConfig.t) (fileSize : Z) :
  storageConfig.IsQuotaExceeded stc = true ->
  0 < fileSize ->
  GoInt.in_int64 (storageConfig.UsedSize stc + fileSize) ->
  storageConfig.CanUpload stc fileSize = false.
Proof.
  intros Hex Hpos Hsum. unfold storageConfig.IsQuotaExceeded in Hex.
  apply andb_true_iff in Hex. destruct Hex as [Hq Hu].
  unfold storageConfig.CanUpload. rewrite Hq.
  rewrite (add64_exact _ _ Hsum).
  apply Z.geb_le in Hu.
  replace (storageConfig.UsedSize stc + fileSize >? storageConfig.QuotaSize stc)
    with true by (symmetry; rewrite Z.gtb_ltb; apply Z.ltb_lt; lia).
  cbn [andb].
  destruct (negb (storageConfig.IsEnabled stc)
            || negb (storageConfig.IsActive stc)); [reflexivity | ].
  destruct (fileSize >? storageConfig.MaxFileSize stc); reflexivity.
Qed.

Lemma quota_exceeded_refuses_uploads_witness :
  storageConfig.CanUpload full_store 1 = false.
Proof.
  apply (quota_exceeded_refuses_uploads full_store 1).
  - reflexivity.
  - lia.
  - unfold GoInt.in_int64, GoInt.min_int64, GoInt.max_int64. cbn. lia.
Defined.

(** X12: what a store accepts is closed downwards: if an upload of [n]
    bytes is accepted, so is every upload of between 0 and [n] bytes
    (usage and sum within [int64]). *)
Theorem CanUpload_downward_closed (stc : storageConfig.t) (m n : Z) :
  GoInt.in_int64 (storageConfig.UsedSize stc) ->
  GoInt.in_int64 (storageConfig.UsedSize stc + n) ->
  0 <= m <= n ->
  storageConfig.CanUpload stc n = true ->
  storageConfig.CanUpload stc m = true.
Proof.
  intros Hu Hsum Hm. unfold storageConfig.CanUpload.
  destruct (negb (storageConfig.IsEnabled stc)
            || negb (storageConfig.IsActive stc)); [discriminate | ].
  destruct (Z.gtb_spec n (storageConfig.MaxFileSize stc)) as [Hn|Hn];
    [discriminate | ].
  replace (m >? storageConfig.MaxFileSize stc) with false
    by (symmetry; rewrite Z.gtb_ltb; apply Z.ltb_ge; lia).
  destruct (storageConfig.QuotaSize stc >? 0); [ | reflexivity ].
  cbn [andb].
  rewrite (add64_exact _ _ Hsum).
  rewrite add64_exact
    by (unfold GoInt.in_int64, GoInt.min_int64, GoInt.max_int64 in *; lia).
  destruct (Z.gtb_spec (storageConfig.UsedSize stc + n)
                       (storageConfig.QuotaSize stc)) as [Hq|Hq];
    [discriminate | ].
  intros _.
  replace (storageConfig.UsedSize stc + m >? storageConfig.QuotaSize stc)
    with false by (symmetry; rewrite Z.gtb_ltb; apply Z.ltb_ge; lia).
  reflexivity.
Qed.

Lemma CanUpload_downward_closed_witness :
  storageConfig.CanUpload small_store 50 = true.
Proof.
  apply (CanUpload_downward_closed small_store 50 80).
  - unfold GoInt.in_int64, GoInt.min_int64, GoInt.max_int64. cbn. lia.
  - unfold GoInt.in_int64, GoInt.min_int64, GoInt.max_int64. cbn. lia.
  - lia.
  - reflexivity.
Defined.

(** Reduction of the projections of the storage rows, leaving the
    assignments of the hook (its [let]s) in place. *)
Ltac store_proj :=
  cbv beta iota delta
    [storageConfigRow.config storageConfigRow.BasePath
     storageConfigRow.ChunkSize storageConfigRow.SignatureExpiry
     storageConfigRow.CacheExpiry storageConfigRow.MonitorInterval
     storageConfigRow.set_Status storageConfigRow.set_MaxFileSize
     storageConfig.MaxFileSize storageConfig.TotalFiles
     storageConfig.TotalSize storageConfig.UsedSize storageConfig.QuotaSize
     storageConfig.Name storageConfig.Provider storageConfig.Status
     storageConfig.ID storageConfig.DefaultFlag storageConfig.EnabledFlag].

(** One assignment of a hook at a time: decide its test, then bind the
    record it leaves. *)
Ltac hook_next :=
  lazymatch goal with
  | |- (let x := (if ?c then _ else _) in _) = _ => destruct c
  end;
  lazymatch goal with
  | |- (let x := ?v in @?body x) = ?rhs => change (body v = rhs); cbv beta
  end.

Lemma storageConfigRow_BeforeCreate_eq (row : storageConfigRow.t) :
  storageConfigRow.BeforeCreate row
  = (storageConfigRow.mk
       (storageConfig.mk
          (if storageConfig.MaxFileSize (storageConfigRow.config row) =? 0
           then 104857600
           else storageConfig.MaxFileSize (storageConfigRow.config row))
          (storageConfig.TotalFiles (storageConfigRow.config row))
          (storageConfig.TotalSize (storageConfigRow.config row))
          (storageConfig.UsedSize (storageConfigRow.config row))
          (storageConfig.QuotaSize (storageConfigRow.config row))
          (storageConfig.Name (storageConfigRow.config row))
          (storageConfig.Provider (storageConfigRow.config row))
          (if (storageConfig.Status (storageConfigRow.config row)
               =? EmptyString)%string
           then ConfigStatusActive
           else storageConfig.Status (storageConfigRow.config row))
          (storageConfig.ID (storageConfigRow.config row))
          (storageConfig.DefaultFlag (storageConfigRow.config row))
          (storageConfig.EnabledFlag (storageConfigRow.config row)))
       (if (storageConfigRow.BasePath row =? EmptyString)%string
        then "/"%string else storageConfigRow.BasePath row)
       (if storageConfigRow.ChunkSize row =? 0
        then 5242880 else storageConfigRow.ChunkSize row)
       (if storageConfigRow.SignatureExpiry row =? 0
        then 3600 else storageConfigRow.SignatureExpiry row)
       (if storageConfigRow.CacheExpiry row =? 0
        then 86400 else storageConfigRow.CacheExpiry row)
       (if storageConfigRow.MonitorInterval row =? 0
        then 300 else storageConfigRow.MonitorInterval row),
     None).
Proof.
  destruct row as [[mx tf ts us qs nm pv st id df en] bp ck se ce mi].
  cbv delta [storageConfigRow.BeforeCreate]. cbv beta. store_proj.
  do 7 (hook_next; store_proj); reflexivity.
Qed.

(** X13: an enabled store created with no status, no per-file maximum
    and no quota is active and unlimited after the hook, with the
    default per-file maximum: it accepts exactly the uploads of at most
    100 MiB. *)
Theorem created_store_accepts_100MiB (row : storageConfigRow.t) (fileSize : Z) :
  storageConfig.EnabledFlag (storageConfigRow.config row) = true ->
  storageConfig.Status (storageConfigRow.config row) = EmptyString ->
  storageConfig.MaxFileSize (storageConfigRow.config row) = 0 ->
  storageConfig.QuotaSize (storageConfigRow.config row) = 0 ->
  (storageConfig.CanUpload
     (storageConfigRow.config (fst (storageConfigRow.BeforeCreate row))) fileSize
   = true
   <-> fileSize <= 104857600).
Proof.
  intros Hen Hst Hmx Hqs.
  rewrite storageConfigRow_BeforeCreate_eq. cbn [fst storageConfigRow.config].
  unfold storageConfig.CanUpload, storageConfig.IsEnabled, storageConfig.IsActive.
  cbn [storageConfig.EnabledFlag storageConfig.Status storageConfig.MaxFileSize
       storageConfig.QuotaSize storageConfig.UsedSize].
  rewrite Hen, Hst, Hmx, Hqs. cbn [negb orb andb Z.eqb String.eqb].
  change (ConfigStatusActive =? ConfigStatusActive)%string with true.
  cbn [negb orb andb Z.gtb Z.compare].
  destruct (Z.gtb_spec fileSize 104857600) as [Hgt|Hle]; split; intros H;
    try reflexivity; try discriminate; lia.
Qed.

Lemma created_store_accepts_100MiB_witness :
  storageConfig.CanUpload
    (storageConfigRow.config (fst (storageConfigRow.BeforeCreate blank_store_row)))
    104857600
  = true.
Proof.
  apply (created_store_accepts_100MiB blank_store_row 104857600
           eq_refl eq_refl eq_refl eq_refl).
  lia.
Defined.

(** X14: a maximum of zero means opposite things for the bin and for
    the store.  A recycle bin whose maximum is 0 counts as full whatever
    (non-negative) amount it holds, although its usage percentage is 0;
    a store whose quota is 0 is never reported exceeded. *)
Theorem zero_maximum_meaning (rb : RecycleBin.t) (stc : storageConfig.t) :
  (RecycleBin.MaxStorageSize rb = 0 -> 0 <= RecycleBin.CurrentStorageSize rb ->
     RecycleBin.IsStorageFull rb = true
     /\ RecycleBin.GetStorageUsagePercent rb = 0%float)
  /\ (RecycleBin.MaxItemCount rb = 0 -> 0 <= RecycleBin.CurrentItemCount rb ->
        RecycleBin.IsItemCountFull rb = true
        /\ RecycleBin.GetItemUsagePercent rb = 0%float)
  /\ (storageConfig.QuotaSize stc = 0 ->
        storageConfig.IsQuotaExceeded stc = false).
Proof.
  split; [ | split ].
  - intros Hm Hc. unfold RecycleBin.IsStorageFull,
      RecycleBin.GetStorageUsagePercent. rewrite Hm.
    split; [apply Z.geb_le; exact Hc | reflexivity].
  - intros Hm Hc. unfold RecycleBin.IsItemCountFull,
      RecycleBin.GetItemUsagePercent. rewrite Hm.
    split; [apply Z.geb_le; exact Hc | reflexivity].
  - intros Hq. unfold storageConfig.IsQuotaExceeded. rewrite Hq. reflexivity.
Qed.

(** ** Files *)

(** X15: a file is never both shared and share-expired.  With a share
    token and a share expiry, it is shared strictly before the expiry
    and share-expired strictly after it, and at the instant of the
    expiry it is neither. *)
Theorem share_state_exclusive (now : GoTime.Time) (f : File.t) :
  (File.IsShared now f = true -> File.IsShareExpired now f = false)
  /\ (forall e, File.ShareToken f <> EmptyString ->
        File.ShareExpiry f = Some e ->
        (File.IsShared now f = true <-> now < e)
        /\ (File.IsShareExpired now f = true <-> e < now)
        /\ (File.IsShared now f = false /\ File.IsShareExpired now f = false
            <-> now = e)).
Proof.
  unfold File.IsShared, File.IsShareExpired. split.
  - intros H. apply andb_true_iff in H. destruct H as [_ H].
    destruct (File.ShareExpiry f) as [e|]; [ | reflexivity ].
    apply After_lt in H. unfold GoTime.Before. apply Z.ltb_ge. lia.
  - intros e Ht He. rewrite He.
    apply String.eqb_neq in Ht. rewrite Ht. cbn [negb andb].
    rewrite After_lt, Before_lt.
    split; [reflexivity | split; [reflexivity | ] ].
    rewrite After_false_le. unfold GoTime.Before. rewrite Z.ltb_ge. lia.
Qed.

(** X16: a file can be previewed if and only if its preview flag is set
    and its status is [normal] (the test that it is not deleted adds
    nothing); so neither a deleted file nor one still uploading can, and
    a file created without a status can as soon as its flag is set. *)
Theorem CanPreviewFile_iff (f : File.t) :
  (File.CanPreviewFile f = true <->
     File.CanPreview f = true /\ File.Status f = FileStatusNormal)
  /\ (File.IsDeleted f = true -> File.CanPreviewFile f = false)
  /\ (File.Status f = EmptyString ->
        File.CanPreviewFile (fst (File.BeforeCreate f)) = File.CanPreview f).
Proof.
  split; [ | split ].
  - unfold File.CanPreviewFile, File.IsDeleted.
    rewrite !andb_true_iff, negb_true_iff, String.eqb_eq. split.
    + intros [[Hc _] Hs]. split; assumption.
    + intros [Hc Hs]. rewrite Hs. repeat split; try reflexivity. exact Hc.
  - unfold File.CanPreviewFile. intros H. rewrite H.
    rewrite andb_false_r. reflexivity.
  - destruct f as [se pid sz id ver nm pth sp tok ft st sty pub cp].
    cbn [File.Status File.CanPreview]. intros Hs. subst st.
    unfold File.BeforeCreate, File.CanPreviewFile, File.IsDeleted.
    hook_cases; destruct cp; reflexivity.
Qed.

Lemma string_length_append (a b : string) :
  String.length (a ++ b) = (String.length a + String.length b)%nat.
Proof.
  induction a as [|c a IH]; cbn [String.append String.length plus].
  - reflexivity.
  - rewrite IH. reflexivity.
Qed.

(** X17: the full path of a file is its name alone exactly when its
    path is empty; otherwise it is one character (the slash) longer than
    path and name together. *)
Theorem GetFullPath_shape (f : File.t) :
  (File.GetFullPath f = File.Name f <-> File.Path f = EmptyString)
  /\ (File.Path f <> EmptyString ->
        String.length (File.GetFullPath f)
        = (String.length (File.Path f) + 1 + String.length (File.Name f))%nat).
Proof.
  unfold File.GetFullPath.
  destruct (String.eqb_spec (File.Path f) EmptyString) as [Hp|Hp].
  - split; [ split; [intros _; exact Hp | reflexivity] | ].
    intros H. contradiction.
  - assert (Hlen : String.length (File.Path f ++ "/" ++ File.Name f)
                   = (String.length (File.Path f) + 1
                      + String.length (File.Name f))%nat).
    { rewrite !string_length_append. cbn [String.length]. lia. }
    split; [ | intros _; exact Hlen ].
    split; [ | intros H; contradiction ].
    intros H. rewrite H in Hlen. lia.
Qed.

(** ** Messages *)

(** X18: a message can be recalled exactly while it is not recalled and
    at most two minutes have passed since it was created (two minutes to
    the nanosecond still count); once that time is over it can never be
    recalled again. *)
Theorem CanRecall_window (now : GoTime.Time) (m : Message.t) :
  (Message.CanRecall now m = true <->
     Message.RecalledFlag m = false
     /\ now <= Message.CreatedAt m + 120000000000)
  /\ (forall later, now <= later ->
        Message.CanRecall now m = false -> Message.CanRecall later m = false).
Proof.
  assert (Hspec : forall t,
             Message.CanRecall t m = true <->
             Message.RecalledFlag m = false
             /\ t <= Message.CreatedAt m + 120000000000).
  { intros t. unfold Message.CanRecall, GoDuration.Since, GoDuration.Sub,
      GoDuration.minDuration, GoDuration.maxDuration, GoDuration.Minute,
      GoDuration.Second, GoInt.min_int64, GoInt.max_int64.
    rewrite andb_true_iff, negb_true_iff, Z.leb_le.
    destruct (Z.ltb_spec (t - Message.CreatedAt m) (- 2 ^ 63));
      [ | destruct (Z.ltb_spec (2 ^ 63 - 1) (t - Message.CreatedAt m)) ];
      split; intros [Hr Hd]; (split; [exact Hr | lia]). }
  split; [apply Hspec | ].
  intros later Hle Hnow.
  destruct (Message.CanRecall later m) eqn:Hl; [exfalso | reflexivity].
  apply Hspec in Hl. destruct Hl as [Hr Hd].
  assert (Hc : Message.CanRecall now m = true)
    by (apply Hspec; split; [exact Hr | lia]).
  rewrite Hc in Hnow. discriminate.
Qed.

(** ** Logs *)

(** The level and status a log hook fills in are the harmless
    ones: an operation log created without level and status counts as a
    success and not as an error, a system log created without level is
    neither an error nor a warning, and a security log created without
    severity is not critical. *)
Theorem created_logs_benign
        (ol : OperationLog.t) (sl : systemLog.t) (sec : securityLog.t) :
  (OperationLog.Level ol = EmptyString -> OperationLog.Status ol = EmptyString ->
     OperationLog.IsSuccess (fst (OperationLog.BeforeCreate ol)) = true
     /\ OperationLog.IsError (fst (OperationLog.BeforeCreate ol)) = false)
  /\ (systemLog.Level sl = EmptyString ->
        systemLog.IsError (fst (systemLog.BeforeCreate sl)) = false
        /\ systemLog.IsWarning (fst (systemLog.BeforeCreate sl)) = false)
  /\ (securityLog.Severity sec = EmptyString ->
        securityLog.IsCritical (fst (securityLog.BeforeCreate sec)) = false).
Proof.
  split; [ | split ].
  - destruct ol as [id uid ty lv act st imp aud].
    cbn [OperationLog.Level OperationLog.Status]. intros Hl Hs. subst lv st.
    split; reflexivity.
  - destruct sl as [id lv ty msg]. cbn [systemLog.Level]. intros Hl. subst lv.
    split; reflexivity.
  - destruct sec as [id ev sv st tl bl rs]. cbn [securityLog.Severity].
    intros Hs. subst sv.
    unfold securityLog.BeforeCreate, securityLog.IsCritical.
    hook_cases; reflexivity.
Qed.

(** ** Configuration checks *)

Section ConfigFacts.

Import Config.

Lemma found_In (x : string) (valid : list string) :
  found x valid = true <-> In x valid.
Proof.
  induction valid as [|v rest IH]; cbn [found In].
  - split; [discriminate | contradiction].
  - destruct (String.eqb_spec x v) as [Heq|Hne].
    + split; [intros _; left; symmetry; exact Heq | reflexivity].
    + rewrite IH. split; [intros H; right; exact H | ].
      intros [H | H]; [exfalso; apply Hne; symmetry; exact H | exact H].
Qed.

Lemma validateBasicConfig_ok_iff (c : t) :
  validateBasicConfig c = None <->
  Name (App c) <> EmptyString
  /\ 1 <= Port (Server c) <= 65535
  /\ Host (Database c) <> EmptyString
  /\ Username (Database c) <> EmptyString
  /\ DBName (Database c) <> EmptyString
  /\ Secret (JWT c) <> EmptyString.
Proof.
  unfold validateBasicConfig.
  destruct (String.eqb_spec (Name (App c)) EmptyString) as [E1|E1];
    [split; [discriminate | intros [Hx _]; contradiction] | ].
  destruct (Z.leb_spec (Port (Server c)) 0) as [E2|E2];
    [split; [discriminate | intros [_ [Hx _]]; lia] | ].
  destruct (Z.gtb_spec (Port (Server c)) 65535) as [E3|E3];
    [split; [discriminate | intros [_ [Hx _]]; lia] | ].
  cbn [orb].
  destruct (String.eqb_spec (Host (Database c)) EmptyString) as [E4|E4];
    [split; [discriminate | intros [_ [_ [Hx _]]]; contradiction] | ].
  destruct (String.eqb_spec (Username (Database c)) EmptyString) as [E5|E5];
    [split; [discriminate | intros [_ [_ [_ [Hx _]]]]; contradiction] | ].
  destruct (String.eqb_spec (DBName (Database c)) EmptyString) as [E6|E6];
    [split; [discriminate | intros [_ [_ [_ [_ [Hx _]]]]]; contradiction] | ].
  destruct (String.eqb_spec (Secret (JWT c)) EmptyString) as [E7|E7];
    [split; [discriminate | intros [_ [_ [_ [_ [_ Hx]]]]]; contradiction] | ].
  split; [intros _ | reflexivity].
  repeat split; try assumption; lia.
Qed.

End ConfigFacts.

(** X19: a configuration passes [validateConfig] if and only if the
    application name, the database host, user name and name and the JWT
    secret are not empty, the server port lies in 1-65535, the
    environment is development, testing or production, and the log level
    is one of debug, info, warn, error, fatal and panic. *)
Theorem validateConfig_ok_iff (c : Config.t) :
  Config.validateConfig c = None <->
  Config.Name (Config.App c) <> EmptyString
  /\ 1 <= Config.Port (Config.Server c) <= 65535
  /\ Config.Host (Config.Database c) <> EmptyString
  /\ Config.Username (Config.Database c) <> EmptyString
  /\ Config.DBName (Config.Database c) <> EmptyString
  /\ Config.Secret (Config.JWT c) <> EmptyString
  /\ In (Config.Env (Config.App c))
        ["development"; "testing"; "production"]%string
  /\ In (Config.Level (Config.Log c))
        ["debug"; "info"; "warn"; "error"; "fatal"; "panic"]%string.
Proof.
  unfold Config.validateConfig, Config.validateEnvType, Config.validateLogLevel.
  change ["development"; "testing"; "production"]%string with Config.validEnvs.
  change ["debug"; "info"; "warn"; "error"; "fatal"; "panic"]%string
    with Config.validLevels.
  rewrite <- !found_In.
  destruct (Config.validateBasicConfig c) as [err|] eqn:Hb.
  - split; [discriminate | ].
    intros [H1 [H2 [H3 [H4 [H5 [H6 _]]]]]].
    assert (Hn : Config.validateBasicConfig c = None)
      by (apply validateBasicConfig_ok_iff; repeat split; tauto).
    rewrite Hn in Hb. discriminate.
  - apply validateBasicConfig_ok_iff in Hb.
    destruct (Config.found (Config.Env (Config.App c)) Config.validEnvs);
      [ | split; [discriminate | intros H; exfalso; intuition discriminate] ].
    destruct (Config.found (Config.Level (Config.Log c)) Config.validLevels);
      [ | split; [discriminate | intros H; exfalso; intuition discriminate] ].
    split; [intros _ | reflexivity]. tauto.
Qed.

(** X20: the checks run in a fixed order and the first failure is the
    one reported: an empty application name is reported whatever else is
    wrong, an invalid environment only when every basic setting is
    valid, and an invalid log level only when the basic settings and the
    environment are valid; the value complained about is the configured
    one. *)
Theorem validateConfig_first_failure (c : Config.t) :
  (Config.Name (Config.App c) = EmptyString ->
     Config.validateConfig c = Some Config.AppNameEmpty)
  /\ (forall env, Config.validateConfig c = Some (Config.InvalidEnvType env) ->
        Config.validateBasicConfig c = None
        /\ env = Config.Env (Config.App c)
        /\ ~ In env Config.validEnvs)
  /\ (forall level,
        Config.validateConfig c = Some (Config.InvalidLogLevel level) ->
        Config.validateBasicConfig c = None
        /\ In (Config.Env (Config.App c)) Config.validEnvs
        /\ level = Config.Level (Config.Log c)
        /\ ~ In level Config.validLevels).
Proof.
  split; [ | split ].
  - intros Hn. unfold Config.validateConfig, Config.validateBasicConfig.
    rewrite Hn. reflexivity.
  - intros env. unfold Config.validateConfig.
    destruct (Config.validateBasicConfig c) as [err|] eqn:Hb.
    + intros H. inversion H. subst err. exfalso.
      unfold Config.validateBasicConfig in Hb.
      repeat match type of Hb with
             | (if ?b then _ else _) = _ => destruct b; try discriminate Hb
             end.
    + unfold Config.validateEnvType, Config.validateLogLevel.
      destruct (Config.found (Config.Env (Config.App c)) Config.validEnvs) eqn:He.
      * destruct (Config.found (Config.Level (Config.Log c)) Config.validLevels);
          discriminate.
      * intros H. inversion H. split; [reflexivity | split; [reflexivity | ] ].
        rewrite <- found_In, He. discriminate.
  - intros level. unfold Config.validateConfig.
    destruct (Config.validateBasicConfig c) as [err|] eqn:Hb.
    + intros H. inversion H. subst err. exfalso.
      unfold Config.validateBasicConfig in Hb.
      repeat match type of Hb with
             | (if ?b then _ else _) = _ => destruct b; try discriminate Hb
             end.
    + unfold Config.validateEnvType, Config.validateLogLevel.
      destruct (Config.found (Config.Env (Config.App c)) Config.validEnvs) eqn:He;
        [ | discriminate ].
      destruct (Config.found (Config.Level (Config.Log c)) Config.validLevels)
        eqn:Hl; [discriminate | ].
      intros H. inversion H.
      split; [reflexivity | split; [apply found_In; exact He | ] ].
      split; [reflexivity | ]. rewrite <- found_In, Hl. discriminate.
Qed.

(** A configuration that passes names one of the three environments. *)
Lemma validateConfig_ok_facts (c : Config.t) :
  Config.validateConfig c = None ->
  Config.Env (Config.App c) = "development"%string
  \/ Config.Env (Config.App c) = "testing"%string
  \/ Config.Env (Config.App c) = "production"%string.
Proof.
  unfold Config.validateConfig, Config.validateEnvType.
  destruct (Config.validateBasicConfig c); [discriminate | ].
  destruct (Config.found (Config.Env (Config.App c)) Config.validEnvs) eqn:He;
    [ | discriminate ].
  intros _. apply found_In in He. cbn [In Config.validEnvs] in He.
  destruct He as [H | [H | [H | H]]]; try contradiction;
    symmetry in H; tauto.
Qed.

(** X21: the two environment queries never both hold.  Without a loaded
    configuration the process counts as development and not as
    production; with a configuration that passed [validateConfig],
    neither holds exactly when the environment is testing. *)
Theorem environment_queries (g : option Config.t) :
  (Config.IsProduction g = true -> Config.IsDevelopment g = false)
  /\ (g = None ->
        Config.IsDevelopment g = true /\ Config.IsProduction g = false)
  /\ (forall c, g = Some c -> Config.validateConfig c = None ->
        (Config.IsProduction g = false /\ Config.IsDevelopment g = false
         <-> Config.Env (Config.App c) = "testing"%string)).
Proof.
  split; [ | split ].
  - destruct g as [c|]; cbn [Config.IsProduction Config.IsDevelopment];
      [ | discriminate ].
    intros H. apply String.eqb_eq in H. rewrite H. reflexivity.
  - intros H. subst g. split; reflexivity.
  - intros c Hg Hv. subst g. cbn [Config.IsProduction Config.IsDevelopment].
    apply validateConfig_ok_facts in Hv.
    destruct Hv as [He | [He | He]]; rewrite He; cbn;
      intuition (try discriminate; try reflexivity).
Qed.

(** ** Creation hooks *)

(** X22: the creation hooks of users, teams, team members, files,
    storage configurations, messages and logs are idempotent: a record
    the hook has filled in passes through it unchanged. *)
Theorem model_hooks_idempotent
        (u : User.t) (tm : Team.t) (mb : TeamMember.t) (f : File.t)
        (row : storageConfigRow.t) (m : Message.t)
        (ol : OperationLog.t) (sl : systemLog.t) (sec : securityLog.t) :
  User.BeforeCreate (fst (User.BeforeCreate u)) = User.BeforeCreate u
  /\ Team.BeforeCreate (fst (Team.BeforeCreate tm)) = Team.BeforeCreate tm
  /\ TeamMember.BeforeCreate (fst (TeamMember.BeforeCreate mb))
     = TeamMember.BeforeCreate mb
  /\ File.BeforeCreate (fst (File.BeforeCreate f)) = File.BeforeCreate f
  /\ storageConfigRow.BeforeCreate (fst (storageConfigRow.BeforeCreate row))
     = storageConfigRow.BeforeCreate row
  /\ Message.BeforeCreate (fst (Message.BeforeCreate m)) = Message.BeforeCreate m
  /\ OperationLog.BeforeCreate (fst (OperationLog.BeforeCreate ol))
     = OperationLog.BeforeCreate ol
  /\ systemLog.BeforeCreate (fst (systemLog.BeforeCreate sl))
     = systemLog.BeforeCreate sl
  /\ securityLog.BeforeCreate (fst (securityLog.BeforeCreate sec))
     = securityLog.BeforeCreate sec.
Proof.
  repeat match goal with |- _ /\ _ => split end.
  - destruct u as [id name [|? ?] [|? ?] [|?|?] used tpl lock]; reflexivity.
  - destruct tm as [nm ds [|? ?] used [|?|?] id cr [|?|?] mc fc pub];
      reflexivity.
  - destruct mb as [id tid uid [|? ?] [|? ?]]; reflexivity.
  - destruct f as [se pid sz id [|?|?] nm pth sp tok ft [|? ?] [|? ?] pub cp];
      reflexivity.
  - rewrite (storageConfigRow_BeforeCreate_eq row). cbn [fst].
    rewrite storageConfigRow_BeforeCreate_eq.
    destruct row as [[mx tf ts us qs nm pv st id df en] bp ck se ce mi].
    store_proj.
    repeat match goal with
           | |- context [String.eqb ?a ?b] =>
               is_var a; destruct (String.eqb_spec a b)
           | |- context [Z.eqb ?a ?b] => is_var a; destruct (Z.eqb_spec a b)
           end;
      try contradiction; try discriminate; reflexivity.
  - destruct m as [ca ra rb ct ty [|? ?] id cid sid ed rf]; reflexivity.
  - destruct ol as [id uid ty [|? ?] act [|? ?] imp aud]; reflexivity.
  - destruct sl as [id [|? ?] ty msg]; reflexivity.
  - destruct sec as [id ev [|? ?] [|? ?] tl bl rs]; reflexivity.
Qed.

(** X23: a user created without type, status and quota is an active,
    non-admin user with 5 GiB: the available space after the hook is
    5 GiB minus what is already used, and the storage is exceeded
    exactly from 5 GiB of usage on. *)
Theorem created_user_defaults (u : User.t) :
  User.UserType_ u = EmptyString ->
  User.Status u = EmptyString ->
  User.StorageQuota u = 0 ->
  0 <= User.UsedStorage u <= GoInt.max_int64 ->
  User.IsActive (fst (User.BeforeCreate u)) = true
  /\ User.IsAdmin (fst (User.BeforeCreate u)) = false
  /\ User.GetAvailableStorage (fst (User.BeforeCreate u))
     = 5368709120 - User.UsedStorage u
  /\ (User.IsStorageExceeded (fst (User.BeforeCreate u)) = true
      <-> 5368709120 <= User.UsedStorage u).
Proof.
  destruct u as [id name ut st q used tpl lock].
  cbn [User.UserType_ User.Status User.StorageQuota User.UsedStorage].
  intros Hut Hst Hq Hused. subst ut st q.
  unfold User.BeforeCreate, User.IsActive, User.IsAdmin,
    User.IsStorageExceeded, User.GetAvailableStorage.
  cbn -[Z.mul Z.add GoInt.sub64 Z.geb].
  rewrite sub64_exact
    by (unfold GoInt.in_int64, GoInt.min_int64, GoInt.max_int64 in *; lia).
  split; [reflexivity | split; [reflexivity | split; [reflexivity | ] ] ].
  rewrite Z.geb_le. lia.
Qed.

Lemma created_user_defaults_witness :
  User.GetAvailableStorage (fst (User.BeforeCreate heavy_user))
  = 5368709120 - 6442450944.
Proof.
  apply (created_user_defaults heavy_user eq_refl eq_refl eq_refl).
  unfold GoInt.max_int64. cbn. lia.
Defined.

(** ** Migration helpers *)

Section MigrateFacts.

Import Migrate.

Lemma string_append_assoc (a b c : string) :
  ((a ++ b) ++ c = a ++ (b ++ c))%string.
Proof.
  induction a as [|x a IH]; cbn [String.append].
  - reflexivity.
  - rewrite IH. reflexivity.
Qed.

Lemma string_append_empty_r (a : string) : (a ++ EmptyString = a)%string.
Proof.
  induction a as [|x a IH]; cbn [String.append].
  - reflexivity.
  - rewrite IH. reflexivity.
Qed.

(** Past the first column, the loop appends a separator and a column
    at every step. *)
Lemma joinColumns_from_later (i : nat) (result : string) (columns : list string) :
  joinColumns_from (S i) result columns
  = match columns with
    | [] => result
    | _ => (result ++ ", " ++ String.concat ", " columns)%string
    end.
Proof.
  revert i result.
  induction columns as [|col rest IH]; intros i result;
    cbn [joinColumns_from].
  - reflexivity.
  - cbn [Nat.ltb Nat.leb]. rewrite IH.
    destruct rest as [|col' rest'].
    + cbn [String.concat]. rewrite string_append_assoc. reflexivity.
    + change (String.concat ", " (col :: col' :: rest'))
        with (col ++ ", " ++ String.concat ", " (col' :: rest'))%string.
      rewrite !string_append_assoc. reflexivity.
Qed.

Lemma check_tables_spec {E : Type} (HasTable : string -> bool)
      (log : list event) (ts : list string) :
  (snd (check_tables (E := E) HasTable log ts) = None <->
     forall t, In t ts -> HasTable t = true)
  /\ (forall t, snd (check_tables (E := E) HasTable log ts)
                = Some (TableMissing t) ->
        exists before after,
          ts = before ++ t :: after
          /\ HasTable t = false
          /\ (forall b, In b before -> HasTable b = true)
          /\ fst (check_tables (E := E) HasTable log ts)
             = log ++ map TablePassed before)
  /\ (forall m c, snd (check_tables (E := E) HasTable log ts)
                  <> Some (MigrateFailed m c)).
Proof.
  revert log. induction ts as [|t0 rest IH]; intros log; cbn [check_tables].
  - split; [ | split ].
    + split; [intros _ t H; contradiction | reflexivity].
    + intros t H. discriminate.
    + intros m c H. discriminate.
  - destruct (HasTable t0) eqn:Ht0; cbn [negb].
    + destruct (IH (log ++ [TablePassed t0])) as [IH1 [IH2 IH3]].
      split; [ | split ].
      * rewrite IH1. split.
        -- intros H t [Heq | Hin]; [subst t; exact Ht0 | apply H; exact Hin].
        -- intros H t Hin. apply H. right. exact Hin.
      * intros t H. destruct (IH2 t H) as [before [after [Hts [Hf [Hb Hlog]]]]].
        exists (t0 :: before), after. split; [rewrite Hts; reflexivity | ].
        split; [exact Hf | ]. split.
        -- intros b [Heq | Hin]; [subst b; exact Ht0 | apply Hb; exact Hin].
        -- rewrite Hlog. cbn [map]. rewrite <- app_assoc. reflexivity.
      * exact IH3.
    + cbn [fst snd]. split; [ | split ].
      * split; [discriminate | ].
        intros H. rewrite (H t0 (or_introl eq_refl)) in Ht0. discriminate.
      * intros t H. inversion H. subst t.
        exists [], rest. split; [reflexivity | ].
        split; [exact Ht0 | ]. split; [intros b Hb; contradiction | ].
        cbn [map]. rewrite app_nil_r. reflexivity.
      * intros m c H. discriminate.
Qed.

Lemma migrate_each_spec {DB E : Type} (migrate : DB -> string -> DB * option E)
      (db : DB) (log : list event) (ms : list string) :
  (snd (migrate_each migrate db log ms) = None ->
     snd (fst (migrate_each migrate db log ms))
     = log ++ map ModelMigrated ms ++ [MigrationDone])
  /\ (forall m c, snd (migrate_each migrate db log ms)
                  = Some (MigrateFailed m c) ->
        exists before after,
          ms = before ++ m :: after
          /\ snd (fst (migrate_each migrate db log ms))
             = log ++ map ModelMigrated before)
  /\ (forall t, snd (migrate_each migrate db log ms) <> Some (TableMissing t)).
Proof.
  revert db log. induction ms as [|m0 rest IH]; intros db log;
    cbn [migrate_each].
  - split; [ | split ].
    + intros _. reflexivity.
    + intros m c H. discriminate.
    + intros t H. discriminate.
  - destruct (migrate db m0) as [db' [err|]].
    + cbn [fst snd]. split; [ | split ].
      * discriminate.
      * intros m c H. inversion H. subst m c.
        exists [], rest. split; [reflexivity | ].
        cbn [map]. rewrite app_nil_r. reflexivity.
      * intros t H. discriminate.
    + destruct (IH db' (log ++ [ModelMigrated m0])) as [IH1 [IH2 IH3]].
      split; [ | split ].
      * intros H. rewrite (IH1 H). cbn [map]. rewrite <- app_assoc.
        reflexivity.
      * intros m c H. destruct (IH2 m c H) as [before [after [Hms Hlog]]].
        exists (m0 :: before), after. split; [rewrite Hms; reflexivity | ].
        rewrite Hlog. cbn [map]. rewrite <- app_assoc. reflexivity.
      * exact IH3.
Qed.

End MigrateFacts.

(** X24: [joinColumns] joins the column names with a comma and a space
    between them, none before the first and none after the last: it is
    the standard concatenation with separator; no column gives the empty
    string, one column gives that column. *)
Theorem joinColumns_concat (columns : list string) :
  Migrate.joinColumns columns = String.concat ", " columns.
Proof.
  unfold Migrate.joinColumns.
  destruct columns as [|col rest]; cbn [Migrate.joinColumns_from].
  - reflexivity.
  - cbn [Nat.ltb Nat.leb String.append]. rewrite joinColumns_from_later.
    destruct rest as [|col' rest']; reflexivity.
Qed.

(** X25: [ValidateModels] fails exactly when one of its eighteen tables
    is missing, whatever indexes exist: it succeeds if and only if every
    table exists, and its error names the first missing table in its
    order, after which nothing more is checked (the log holds the tables
    before it and no index line). *)
Theorem ValidateModels_tables_only
        (HasTable : string -> bool) (HasIndex : string -> string -> bool) :
  (snd (Migrate.ValidateModels (E := unit) HasTable HasIndex) = None <->
     forall t, In t Migrate.tables -> HasTable t = true)
  /\ (forall t,
        snd (Migrate.ValidateModels (E := unit) HasTable HasIndex)
        = Some (Migrate.TableMissing t) ->
        exists before after,
          Migrate.tables = before ++ t :: after
          /\ HasTable t = false
          /\ (forall b, In b before -> HasTable b = true)
          /\ fst (Migrate.ValidateModels (E := unit) HasTable HasIndex)
             = Migrate.ValidationStarted :: map Migrate.TablePassed before)
  /\ (forall HasIndex',
        snd (Migrate.ValidateModels (E := unit) HasTable HasIndex')
        = snd (Migrate.ValidateModels (E := unit) HasTable HasIndex)).
Proof.
  unfold Migrate.ValidateModels.
  pose proof (check_tables_spec (E := unit) HasTable
                [Migrate.ValidationStarted] Migrate.tables) as [H1 [H2 _]].
  destruct (Migrate.check_tables HasTable [Migrate.ValidationStarted]
              Migrate.tables) as [log [err|]] eqn:Hc;
    cbn [fst snd] in *.
  - split; [exact H1 | split; [exact H2 | ] ].
    intros HasIndex'. reflexivity.
  - split; [exact H1 | split; [ | intros HasIndex'; reflexivity ] ].
    intros t H. discriminate.
Qed.

(** X26: [AutoMigrate] stops at the first model whose migration fails
    and returns that failure: the models logged as migrated are exactly
    the ones before it in the migration order, and none after it is
    attempted; when no migration fails, all twenty-five models are
    logged, in order. *)
Theorem AutoMigrate_first_failure
        (DB E : Type) (migrate : DB -> string -> DB * option E) (db : DB) :
  (snd (Migrate.AutoMigrate migrate db) = None ->
     snd (fst (Migrate.AutoMigrate migrate db))
     = Migrate.MigrationStarted
       :: map Migrate.ModelMigrated Migrate.models ++ [Migrate.MigrationDone])
  /\ (forall m c,
        snd (Migrate.AutoMigrate migrate db) = Some (Migrate.MigrateFailed m c) ->
        exists before after,
          Migrate.models = before ++ m :: after
          /\ snd (fst (Migrate.AutoMigrate migrate db))
             = Migrate.MigrationStarted :: map Migrate.ModelMigrated before)
  /\ (forall m c before after,
        Migrate.models = before ++ m :: after ->
        (forall d b, In b before -> snd (migrate d b) = None) ->
        (forall d, snd (migrate d m) = Some c) ->
        snd (Migrate.AutoMigrate migrate db) = Some (Migrate.MigrateFailed m c)).
Proof.
  unfold Migrate.AutoMigrate.
  pose proof (migrate_each_spec migrate db [Migrate.MigrationStarted]
                Migrate.models) as [H1 [H2 _]].
  split; [exact H1 | split; [exact H2 | ] ].
  intros m c before after Hms Hok Hfail. rewrite Hms.
  generalize db, [Migrate.MigrationStarted]. clear H1 H2 Hms.
  induction before as [|b before IH]; intros d log;
    cbn [app Migrate.migrate_each].
  - pose proof (Hfail d) as Hd. destruct (migrate d m) as [d' [err|]];
      cbn [snd] in *; [ | discriminate ].
    inversion Hd. reflexivity.
  - pose proof (Hok d b (or_introl eq_refl)) as Hd.
    destruct (migrate d b) as [d' [err|]]; cbn [snd] in *; [discriminate | ].
    apply IH. intros d0 b0 Hin. apply Hok. right. exact Hin.
Qed.
